(** * Ramadan schedule proxy: the time normaliser and the day filter

    A shallow embedding of [backend/main.py]: the function [_to_24h_hhmm]
    and the handler [get_ramadan], together with the parts of the Python
    runtime they rest on ([str.strip], [str.split], [int], [re.fullmatch],
    [datetime.strptime] for the format ["%I:%M %p"], [strftime] for
    ["%H:%M"], and the values [json] decoding produces). *)

From Stdlib Require Import NArith ZArith List Bool String Ascii Lia Floats.
Import ListNotations.

Set Implicit Arguments.

(** ** Python strings *)

(** A [str] is a sequence of Unicode code points. *)
Definition char := N.
Definition str := list char.

(** The code points of a literal of the source (ASCII text). *)
Definition lit (s : string) : str := map N_of_ascii (list_ascii_of_string s).

Definition char_eqb (a b : char) : bool := N.eqb a b.

Fixpoint str_eqb (a b : str) : bool :=
  match a, b with
  | [], [] => true
  | x :: a', y :: b' => char_eqb x y && str_eqb a' b'
  | _, _ => false
  end.

Module Py.

Local Open Scope N_scope.

(** [str.isspace] on one code point (the interpreter's whitespace table;
    the pattern class [\s] of [re] on [str] patterns uses the same one). *)
Definition isspace (c : char) : bool :=
  ((9 <=? c) && (c <=? 13)) || ((28 <=? c) && (c <=? 32))
  || (c =? 133) || (c =? 160) || (c =? 5760)
  || ((8192 <=? c) && (c <=? 8202))
  || (c =? 8232) || (c =? 8233) || (c =? 8239) || (c =? 8287) || (c =? 12288).

(** The Unicode decimal digits (category Nd) come in runs of ten
    consecutive code points, digit 0 first; these are the first code
    points of the runs (Unicode 14, as shipped with CPython 3.11). *)
Definition decimal_zeros : list N :=
  [48; 1632; 1776; 1984; 2406; 2534; 2662; 2790; 2918; 3046; 3174; 3302;
   3430; 3558; 3664; 3792; 3872; 4160; 4240; 6112; 6160; 6470; 6608; 6784;
   6800; 6992; 7088; 7232; 7248; 42528; 43216; 43264; 43472; 43504; 43600;
   44016; 65296; 66720; 68912; 69734; 69872; 69942; 70096; 70384; 70736;
   70864; 71248; 71360; 71472; 71904; 72016; 72784; 73040; 73120; 92768;
   92864; 93008; 120782; 120792; 120802; 120812; 120822; 123200; 123632;
   125264; 130032].

(** The decimal value of a code point, if it is a decimal digit. *)
Definition decimal (c : char) : option Z :=
  match find (fun z => (z <=? c) && (c <? z + 10)) decimal_zeros with
  | Some z => Some (Z.of_N (c - z))
  | None => None
  end.

(** [str.isdecimal] on one code point; the pattern class [\d]. *)
Definition isdecimal (c : char) : bool :=
  match decimal c with Some _ => true | None => false end.

(** [str.lower] on one code point, for the ASCII letters (the only cased
    code points the texts lowered in this program can hold). *)
Definition lower (c : char) : char :=
  if (65 <=? c) && (c <=? 90) then c + 32 else c.

Fixpoint lstrip (s : str) : str :=
  match s with
  | c :: s' => if isspace c then lstrip s' else s
  | [] => []
  end.

Definition rstrip (s : str) : str := rev (lstrip (rev s)).

(** [s.strip()] *)
Definition strip (s : str) : str := rstrip (lstrip s).

(** [s.split(sep)] for a separator of one code point. *)
Fixpoint split (sep : char) (s : str) : list str :=
  match s with
  | [] => [[]]
  | c :: s' =>
      if char_eqb c sep then [] :: split sep s'
      else match split sep s' with
           | h :: t => (c :: h) :: t
           | [] => [[c]]
           end
  end.

Fixpoint int_digits (acc : Z) (s : str) : option Z :=
  match s with
  | [] => Some acc
  | c :: s' =>
      match decimal c with
      | Some d => int_digits (10 * acc + d) s'
      | None => None
      end
  end.

(** [int(s)] on a text of decimal digits; [None] stands for the
    [ValueError] it raises.  (Signs, underscores and surrounding blanks,
    which [int] also reads, never reach it in this program: it is only
    applied to texts matched by [\d] classes.) *)
Definition int (s : str) : option Z :=
  match s with
  | [] => None
  | _ => int_digits 0 s
  end.

Fixpoint uint_chars (u : Decimal.uint) : str :=
  match u with
  | Decimal.Nil => []
  | Decimal.D0 u => 48 :: uint_chars u
  | Decimal.D1 u => 49 :: uint_chars u
  | Decimal.D2 u => 50 :: uint_chars u
  | Decimal.D3 u => 51 :: uint_chars u
  | Decimal.D4 u => 52 :: uint_chars u
  | Decimal.D5 u => 53 :: uint_chars u
  | Decimal.D6 u => 54 :: uint_chars u
  | Decimal.D7 u => 55 :: uint_chars u
  | Decimal.D8 u => 56 :: uint_chars u
  | Decimal.D9 u => 57 :: uint_chars u
  end.

(** [format(n, "d")]: the decimal digits of [abs n]. *)
Definition digits (n : Z) : str := uint_chars (N.to_uint (Z.abs_N n)).

(** [format(n, "02d")]: sign, then zeros up to a width of two, then digits. *)
Definition format_02d (n : Z) : str :=
  let sign := if (n <? 0)%Z then lit "-" else [] in
  let body := digits n in
  sign ++ repeat 48 (2 - List.length sign - List.length body) ++ body.

(** [str(n)] for an integer. *)
Definition str_of_int (n : Z) : str :=
  (if (n <? 0)%Z then lit "-" else []) ++ digits n.

End Py.

(** ** Exceptions and results *)

(** The exceptions this program can raise.  [ValueError] carries its
    message; where the library raises it, the message is the library's
    text without its interpolated arguments (the caller replaces or discards
    it).  [AttributeError] and [TypeError] are the failures of a method call
    or an iteration on a value of the wrong type. *)
Inductive exn :=
| ValueError (msg : str)
| AttributeError
| TypeError
| HTTPException (status_code : Z) (detail : str).

(** A computation returns a value or raises. *)
Definition result (A : Type) := (exn + A)%type.

Definition ret {A} (a : A) : result A := inr a.
Definition raise {A} (e : exn) : result A := inl e.

Definition bind {A B} (m : result A) (k : A -> result B) : result B :=
  match m with
  | inl e => inl e
  | inr a => k a
  end.

Notation "x <- m ;; k" := (bind m (fun x => k))
  (at level 61, m at next level, right associativity).

(** ** The regular expressions of [re] used here *)

Module re.

(** Patterns: a literal, a class ([\d], [\s], [[0-5]]), concatenation,
    alternation, a greedy bounded repetition of a class ([\d{1,2}], [\s+])
    and a named group. *)
Inductive pattern :=
| Lit (c : char)
| Class (p : char -> bool)
| Cat (a b : pattern)
| Alt (a b : pattern)
| Repeat (lo : nat) (hi : option nat) (p : char -> bool)
| Group (name : string) (a : pattern).

Definition captures := list (string * str).

(** Under IGNORECASE a literal also matches the code points with the same
    lower case (exact for the literals of the patterns below: no code point
    outside ASCII lowers to a digit, a colon or one of [a], [m], [p]). *)
Definition lit_matches (ignorecase : bool) (c x : char) : bool :=
  char_eqb x c || (ignorecase && char_eqb (Py.lower x) (Py.lower c)).

Definition more (hi : option nat) : bool :=
  match hi with Some O => false | _ => true end.

(** The rests of the input after a greedy repetition, longest first. *)
Fixpoint rep (p : char -> bool) (lo : nat) (hi : option nat) (s : str)
  : list str :=
  let stop := match lo with O => [s] | S _ => [] end in
  match s with
  | c :: s' =>
      if p c && more hi
      then rep p (Nat.pred lo) (option_map Nat.pred hi) s' ++ stop
      else stop
  | [] => stop
  end.

(** The text consumed between an input and one of its rests. *)
Definition taken (s rest : str) : str :=
  firstn (List.length s - List.length rest) s.

(** All the ways a pattern matches at the head of [s], in the order the
    backtracking matcher tries them: each with the rest of the input and
    the groups captured so far. *)
Fixpoint run (ignorecase : bool) (r : pattern) (s : str) (caps : captures)
  : list (str * captures) :=
  match r with
  | Lit c =>
      match s with
      | x :: s' => if lit_matches ignorecase c x then [(s', caps)] else []
      | [] => []
      end
  | Class p =>
      match s with
      | x :: s' => if p x then [(s', caps)] else []
      | [] => []
      end
  | Cat a b =>
      flat_map (fun m => run ignorecase b (fst m) (snd m))
               (run ignorecase a s caps)
  | Alt a b => run ignorecase a s caps ++ run ignorecase b s caps
  | Repeat lo hi p => map (fun rest => (rest, caps)) (rep p lo hi s)
  | Group name a =>
      map (fun m => (fst m, (name, taken s (fst m)) :: snd m))
          (run ignorecase a s caps)
  end.

(** A match object: where the match ends and what the groups hold. *)
Record Match := { m_end : nat; groupdict : captures }.

Definition to_match (s : str) (m : str * captures) : Match :=
  {| m_end := List.length s - List.length (fst m); groupdict := snd m |}.

(** [re.match]: the first way the pattern matches at the start. *)
Definition match_ (ignorecase : bool) (r : pattern) (s : str) : option Match :=
  option_map (to_match s) (hd_error (run ignorecase r s [])).

(** [re.fullmatch]: the first way that consumes the whole input. *)
Definition fullmatch (ignorecase : bool) (r : pattern) (s : str)
  : option Match :=
  option_map (to_match s)
    (find (fun m => match fst m with [] => true | _ => false end)
          (run ignorecase r s [])).

Fixpoint get (name : string) (d : captures) : option str :=
  match d with
  | [] => None
  | (k, v) :: d' => if String.eqb k name then Some v else get name d'
  end.

Definition in_range (lo hi : string) (c : char) : bool :=
  match lit lo, lit hi with
  | [a], [b] => (a <=? c)%N && (c <=? b)%N
  | _, _ => false
  end.

Definition chr (s : string) : char :=
  match lit s with [c] => c | _ => 0%N end.

End re.

(** ** [datetime.strptime(s, "%I:%M %p")] and [strftime("%H:%M")] *)

(** After [Lib/_strptime.py] of CPython 3.11: the format is compiled to a
    pattern, the pattern is matched at the start of the text with
    IGNORECASE, the match has to consume the whole text, and the groups are
    converted to the fields of the result. *)

Module datetime.

Import re.

Record t := { hour : Z; minute : Z }.

(** [(?P<I>1[0-2]|0[1-9]|[1-9])] *)
Definition directive_I : pattern :=
  Group "I" (Alt (Cat (Lit (chr "1")) (Class (in_range "0" "2")))
            (Alt (Cat (Lit (chr "0")) (Class (in_range "1" "9")))
                 (Class (in_range "1" "9")))).

(** [(?P<M>[0-5]\d|\d)] *)
Definition directive_M : pattern :=
  Group "M" (Alt (Cat (Class (in_range "0" "5")) (Class Py.isdecimal))
                 (Class Py.isdecimal)).

(** The locale's AM and PM texts, lowered (C locale). *)
Definition am_pm : str * str := (lit "am", lit "pm").

(** [(?P<p>am|pm)] *)
Definition directive_p : pattern :=
  Group "p" (Alt (Cat (Lit (chr "a")) (Lit (chr "m")))
                 (Cat (Lit (chr "p")) (Lit (chr "m")))).

(** The pattern [_strptime] compiles for ["%I:%M %p"], with IGNORECASE:
    the blank of the format becomes [\s+]. *)
Definition format_regex : pattern :=
  Cat directive_I
    (Cat (Lit (chr ":"))
      (Cat directive_M
        (Cat (Repeat 1 None Py.isspace) directive_p))).

Definition int_or_raise (s : str) : result Z :=
  match Py.int s with
  | Some n => ret n
  | None => raise (ValueError (lit "invalid literal for int() with base 10"))
  end.

(** The constructor checks its fields. *)
Definition make (h m : Z) : result t :=
  if ((0 <=? h) && (h <=? 23))%Z then
    if ((0 <=? m) && (m <=? 59))%Z then ret {| hour := h; minute := m |}
    else raise (ValueError (lit "minute must be in 0..59"))
  else raise (ValueError (lit "hour must be in 0..23")).

Definition strptime_I_M_p (data_string : str) : result t :=
  match match_ true format_regex data_string with
  | None => raise (ValueError (lit "time data does not match format"))
  | Some found =>
      if negb (Nat.eqb (List.length data_string) (m_end found))
      then raise (ValueError (lit "unconverted data remains"))
      else
        h <- match get "I" (groupdict found) with
             | Some text =>
                 h <- int_or_raise text ;;
                 let ampm := match get "p" (groupdict found) with
                             | Some p => map Py.lower p
                             | None => []
                             end in
                 ret (if str_eqb ampm [] || str_eqb ampm (fst am_pm)
                      then (if (h =? 12)%Z then 0%Z else h)
                      else if str_eqb ampm (snd am_pm)
                      then (if negb (h =? 12)%Z then (h + 12)%Z else h)
                      else h)
             | None => ret 0%Z
             end ;;
        m <- match get "M" (groupdict found) with
             | Some text => int_or_raise text
             | None => ret 0%Z
             end ;;
        make h m
  end.

(** [dt.strftime("%H:%M")] *)
Definition strftime_H_M (dt : t) : str :=
  Py.format_02d (hour dt) ++ lit ":" ++ Py.format_02d (minute dt).

End datetime.

(** ** The time normaliser *)

(** [r"\d{1,2}:\d{2}"] *)
Definition hhmm_regex : re.pattern :=
  re.Cat (re.Repeat 1 (Some 2%nat) Py.isdecimal)
    (re.Cat (re.Lit (re.chr ":")) (re.Repeat 2 (Some 2%nat) Py.isdecimal)).

Definition unrecognized (time_str : str) : exn :=
  ValueError (lit "Unrecognized time format: '" ++ time_str ++ lit "'").

Definition _to_24h_hhmm (time_str : str) : result str :=
  let s := Py.strip time_str in
  match re.fullmatch false hhmm_regex s with
  | Some _ =>
      match Py.split (re.chr ":") s with
      | [hh; mm] =>
          h <- datetime.int_or_raise hh ;;
          m <- datetime.int_or_raise mm ;;
          ret (Py.format_02d h ++ lit ":" ++ Py.format_02d m)
      | _ => raise (ValueError (lit "not enough values to unpack"))
      end
  | None =>
      match datetime.strptime_I_M_p s with
      | inr dt => ret (datetime.strftime_H_M dt)
      | inl (ValueError _) => raise (unrecognized time_str)
      | inl e => raise e
      end
  end.

(** ** The values of a decoded JSON body *)

(** What [resp.json()] returns: [None], a [bool], an [int], a [float], a
    [str], a [list] or a [dict] with [str] keys.  A [dict] is kept as its
    items in insertion order; its keys are distinct, and a lookup finds the
    item of a key. *)
Unset Elimination Schemes.

Inductive value :=
| PyNone
| PyBool (b : bool)
| PyInt (n : Z)
| PyFloat (f : float)
| PyStr (s : str)
| PyList (l : list value)
| PyDict (items : list (str * value)).

Set Elimination Schemes.

Definition dict := list (str * value).

Fixpoint lookup (d : dict) (key : str) : option value :=
  match d with
  | [] => None
  | (k, v) :: d' => if str_eqb k key then Some v else lookup d' key
  end.

(** [bool(v)] *)
Definition truthy (v : value) : bool :=
  match v with
  | PyNone => false
  | PyBool b => b
  | PyInt n => negb (n =? 0)%Z
  | PyFloat f => negb (PrimFloat.eqb f PrimFloat.zero)
  | PyStr s => match s with [] => false | _ => true end
  | PyList l => match l with [] => false | _ => true end
  | PyDict d => match d with [] => false | _ => true end
  end.

(** [v[key]] for a [str] key: only a [dict] can be indexed by a [str], and
    a missing key raises [KeyError]; both are caught together where this is
    used, so one exception stands for the two. *)
Definition getitem (v : value) (key : str) : result value :=
  match v with
  | PyDict d =>
      match lookup d key with
      | Some x => ret x
      | None => raise TypeError
      end
  | _ => raise TypeError
  end.

(** [v.get(key, default)]: only a [dict] has the method. *)
Definition dict_get (v : value) (key : str) (default : value) : result value :=
  match v with
  | PyDict d =>
      ret (match lookup d key with Some x => x | None => default end)
  | _ => raise AttributeError
  end.

(** [for day in v]: a [list] yields its elements, a [str] its characters, a
    [dict] its keys; the other values are not iterable. *)
Definition iter (v : value) : result (list value) :=
  match v with
  | PyList l => ret l
  | PyStr s => ret (map (fun c => PyStr [c]) s)
  | PyDict d => ret (map (fun kv => PyStr (fst kv)) d)
  | _ => raise TypeError
  end.

(** ** The handler of [/ramadan] *)

(** A call of [_to_24h_hhmm] on a value of the body: its first step,
    [time_str.strip()], exists on a [str] only. *)
Definition call_to_24h_hhmm (v : value) : result str :=
  match v with
  | PyStr s => _to_24h_hhmm s
  | _ => raise AttributeError
  end.

(** One pass of the loop body: [None] is [continue], [Some r] appends [r]. *)
Definition loop_body (day : value) : result (option dict) :=
  date_str <- dict_get day (lit "date") PyNone ;;
  time_obj <- dict_get day (lit "time") (PyDict []) ;;
  sahur_raw <- dict_get time_obj (lit "sahur") PyNone ;;
  iftar_raw <- dict_get time_obj (lit "iftar") PyNone ;;
  if negb (truthy date_str && truthy sahur_raw && truthy iftar_raw)
  then ret None
  else
    match (sahur_24 <- call_to_24h_hhmm sahur_raw ;;
           iftar_24 <- call_to_24h_hhmm iftar_raw ;;
           ret (sahur_24, iftar_24)) with
    | inl (ValueError _) => ret None
    | inl e => raise e
    | inr (sahur_24, iftar_24) =>
        hijri_readable <- dict_get day (lit "hijri_readable") PyNone ;;
        day_no <- dict_get day (lit "day") PyNone ;;
        ret (Some [ (lit "date", date_str);
                    (lit "sahur", PyStr sahur_24);
                    (lit "iftar", PyStr iftar_24);
                    (lit "hijri_readable", hijri_readable);
                    (lit "day", day_no) ])
    end.

Fixpoint loop (days : list value) (out : list dict) : result (list dict) :=
  match days with
  | [] => ret out
  | day :: rest =>
      r <- loop_body day ;;
      loop rest (match r with Some rec => out ++ [rec] | None => out end)
  end.

(** What the outbound request comes to: a decoded body; a non-2xx status
    with the text its body renders to ([str] of the decoded body when it
    decodes, the raw text otherwise); or any other failure with its text. *)
Inductive response :=
| Decoded (payload : value)
| HTTPStatusError (status_code : Z) (json_text : option str) (text : str)
| Failed (message : str).

Definition ISLAMIC_API_BASE : str := lit "https://islamicapi.com/api/v1/ramadan/".

Definition missing_key : exn :=
  HTTPException 500 (lit "Missing ISLAMIC_API_KEY. Add it to backend/.env").

Definition upstream_status (status_code : Z) (body : str) : exn :=
  HTTPException 502
    (lit "Upstream IslamicAPI error: HTTP " ++ Py.str_of_int status_code
       ++ lit " - " ++ body).

Definition upstream_failed (message : str) : exn :=
  HTTPException 502 (lit "Failed to fetch Ramadan data: " ++ message).

Definition unexpected_shape : exn :=
  HTTPException 502
    (lit "Unexpected IslamicAPI response shape (missing data.fasting).").

Definition no_fasting_days : exn :=
  HTTPException 502 (lit "No fasting days returned from IslamicAPI.").

(** [getenv] is the process environment and [client_get] the outbound GET
    with its query parameters. *)
Definition get_ramadan
    (getenv : str -> option str)
    (client_get : str -> list (str * str) -> response)
    (lat lon : str) : result (list dict) :=
  match getenv (lit "ISLAMIC_API_KEY") with
  | None | Some [] => raise missing_key
  | Some api_key =>
      let params :=
        [(lit "lat", lat); (lit "lon", lon); (lit "api_key", api_key)] in
      payload <-
        match client_get ISLAMIC_API_BASE params with
        | Decoded payload => ret payload
        | HTTPStatusError status_code json_text text =>
            raise (upstream_status status_code
                     (match json_text with Some t => t | None => text end))
        | Failed message => raise (upstream_failed message)
        end ;;
      fasting_days <-
        match (data <- getitem payload (lit "data") ;;
               getitem data (lit "fasting")) with
        | inr v => ret v
        | inl _ => raise unexpected_shape
        end ;;
      days <- iter fasting_days ;;
      out <- loop days [] ;;
      match out with
      | [] => raise no_fasting_days
      | _ => ret out
      end
  end.

(** * Specification-side notions

    What follows is not a translation of the source: these are the
    notions the properties below are stated with. *)

(** ** A relational reading of the patterns *)

Definition within (hi : option nat) (n : nat) : Prop :=
  match hi with Some h => (n <= h)%nat | None => True end.

(** [matches ic r s caps rest caps']: the pattern [r] matches a prefix of
    [s], leaving [rest], and extends the captured groups [caps] to
    [caps']. *)
Inductive matches (ic : bool)
  : re.pattern -> str -> re.captures -> str -> re.captures -> Prop :=
| M_lit c x rest caps :
    re.lit_matches ic c x = true ->
    matches ic (re.Lit c) (x :: rest) caps rest caps
| M_class (p : char -> bool) x rest caps :
    p x = true ->
    matches ic (re.Class p) (x :: rest) caps rest caps
| M_cat a b s caps mid caps1 rest caps2 :
    matches ic a s caps mid caps1 ->
    matches ic b mid caps1 rest caps2 ->
    matches ic (re.Cat a b) s caps rest caps2
| M_alt_l a b s caps rest caps1 :
    matches ic a s caps rest caps1 ->
    matches ic (re.Alt a b) s caps rest caps1
| M_alt_r a b s caps rest caps1 :
    matches ic b s caps rest caps1 ->
    matches ic (re.Alt a b) s caps rest caps1
| M_repeat lo hi (p : char -> bool) w rest caps :
    Forall (fun c => p c = true) w ->
    (lo <= List.length w)%nat -> within hi (List.length w) ->
    matches ic (re.Repeat lo hi p) (w ++ rest) caps rest caps
| M_group name a s caps rest caps1 :
    matches ic a s caps rest caps1 ->
    matches ic (re.Group name a) s caps rest ((name, re.taken s rest) :: caps1).

(** ** The texts the normaliser reads *)

Definition decimal_digit (c : char) : Prop := Py.isdecimal c = true.

(** The code points [str.isspace] accepts. *)
Definition spaces : list N :=
  [9; 10; 11; 12; 13; 28; 29; 30; 31; 32; 133; 160; 5760; 8192; 8193; 8194;
   8195; 8196; 8197; 8198; 8199; 8200; 8201; 8202; 8232; 8233; 8239; 8287;
   12288]%N.

(** One or two decimal digits, a colon, two decimal digits. *)
Definition hhmm_text (s : str) : Prop :=
  exists hh mm,
    s = hh ++ lit ":" ++ mm /\
    (List.length hh = 1 \/ List.length hh = 2)%nat /\ List.length mm = 2%nat /\
    Forall decimal_digit hh /\ Forall decimal_digit mm.

(** An hour from 1 to 12 in ASCII digits: [1]..[9], [10]..[12] or
    [01]..[09]. *)
Definition hour_text (hh : str) : Prop :=
  (exists a, hh = [a] /\ 49 <= a <= 57)%N \/
  (exists b, hh = [49; b] /\ 48 <= b <= 50)%N \/
  (exists b, hh = [48; b] /\ 49 <= b <= 57)%N.

(** A minute: an ASCII digit from 0 to 5 and a decimal digit, or one
    decimal digit alone. *)
Definition minute_text (mm : str) : Prop :=
  (exists a d, mm = [a; d] /\ (48 <= a <= 53)%N /\ decimal_digit d) \/
  (exists d, mm = [d] /\ decimal_digit d).

(** One or more white-space code points. *)
Definition blank_text (ws : str) : Prop :=
  ws <> [] /\ Forall (fun c => Py.isspace c = true) ws.

(** [am] or [pm], each letter in either case. *)
Definition meridiem_text (ap : str) : Prop :=
  exists x y, ap = [x; y] /\
    (x = 97 \/ x = 65 \/ x = 112 \/ x = 80)%N /\ (y = 109 \/ y = 77)%N.

Definition clock12_parts (s hh mm ws ap rest : str) : Prop :=
  s = hh ++ lit ":" ++ mm ++ ws ++ ap ++ rest /\
  hour_text hh /\ minute_text mm /\ blank_text ws /\ meridiem_text ap.

(** The 12-hour texts: hour, colon, minute, blank, meridiem. *)
Definition clock12_text (s : str) : Prop :=
  exists hh mm ws ap, clock12_parts s hh mm ws ap [].

(** The 12-hour pattern in its strictest wording: [\d{1,2}:\d{2}], one
    blank, then [AM] or [PM] in upper case. *)
Definition strict_clock12_regex : re.pattern :=
  re.Cat (re.Repeat 1 (Some 2%nat) Py.isdecimal)
    (re.Cat (re.Lit (re.chr ":"))
      (re.Cat (re.Repeat 2 (Some 2%nat) Py.isdecimal)
        (re.Cat (re.Lit (re.chr " "))
          (re.Alt (re.Cat (re.Lit (re.chr "A")) (re.Lit (re.chr "M")))
                  (re.Cat (re.Lit (re.chr "P")) (re.Lit (re.chr "M"))))))).

(** A text is of one of the two patterns, the 12-hour one read strictly. *)
Definition strictly_recognized (s : str) : bool :=
  match re.fullmatch false hhmm_regex s,
        re.fullmatch false strict_clock12_regex s with
  | None, None => false
  | _, _ => true
  end.

(** ** Rendering a time of day *)

(** A number below 100 in two ASCII digits. *)
Definition two_digits (n : Z) : str :=
  [Z.to_N (48 + n / 10); Z.to_N (48 + n mod 10)].

(** The hour of the 24-hour clock: 12 AM is 0, 12 PM is 12, and the other
    PM hours gain 12. *)
Definition hour24 (h : Z) (pm : bool) : Z :=
  if pm then (if (h =? 12)%Z then 12 else h + 12)%Z
  else (if (h =? 12)%Z then 0 else h)%Z.

(** An hour in one or two digits: below 10 the leading zero is optional. *)
Definition hour_field (leading_zero : bool) (h : Z) : str :=
  if (h <? 10)%Z
  then (if leading_zero then two_digits h else [Z.to_N (48 + h)])
  else two_digits h.

(** The text [H:MM AM] or [H:MM PM] of an hour and a minute. *)
Definition clock12 (leading_zero : bool) (h m : Z) (pm : bool) : str :=
  hour_field leading_zero h ++ lit ":" ++ two_digits m ++ lit " "
    ++ (if pm then lit "PM" else lit "AM").

(** A text [HH:MM] of two ASCII digits each, with the hour from 00 to 23
    and the minute from 00 to 59. *)
Definition time_of_day (s : str) : bool :=
  match s with
  | [a; b; c; d; e] =>
      let digit x := ((48 <=? x) && (x <=? 57))%N in
      digit a && digit b && (c =? 58)%N && digit d && digit e
      && (10 * (a - 48) + (b - 48) <=? 23)%N
      && (10 * (d - 48) + (e - 48) <=? 59)%N
  | _ => false
  end.

(** ** Finite checks *)

Fixpoint zrange (lo : Z) (n : nat) : list Z :=
  match n with
  | O => []
  | S n' => lo :: zrange (lo + 1) n'
  end.

Definition returns (r : result str) (y : str) : bool :=
  match r with
  | inr x => str_eqb x y
  | inl _ => false
  end.

Definition clock12_check (lz pm : bool) (h m : Z) : bool :=
  returns (_to_24h_hhmm (clock12 lz h m pm))
          (two_digits (hour24 h pm) ++ lit ":" ++ two_digits m).

Definition two_digits_check (n : Z) : bool :=
  forallb Py.isdecimal (two_digits n) &&
  match Py.int (two_digits n) with
  | Some v => (v =? n)%Z
  | None => false
  end.

(** A text stops a run of [q]-characters when it is empty or starts with a
    character outside [q]. *)
Definition stops (q : char -> bool) (t : str) : Prop :=
  match t with
  | [] => True
  | c :: _ => q c = false
  end.

Definition is_value_error (e : exn) : Prop := exists msg, e = ValueError msg.

Definition detail_char (n : nat) (e : exn) : N :=
  match e with
  | HTTPException _ detail => nth n detail 0%N
  | _ => 0%N
  end.

(** ** Days and records *)

(** The member of a JSON object under a key; [None] when the value is not
    an object or has no such member. *)
Definition member (v : value) (key : str) : option value :=
  match v with
  | PyDict d => lookup d key
  | _ => None
  end.

(** The value at a path of keys, if every step exists. *)
Fixpoint at_path (v : value) (path : list str) : option value :=
  match path with
  | [] => Some v
  | key :: path' =>
      match member v key with
      | Some x => at_path x path'
      | None => None
      end
  end.

Definition or_none (o : option value) : value :=
  match o with Some v => v | None => PyNone end.

(** The clean record of a well-formed day: [date], [time.sahur] and
    [time.iftar] are present and not empty, the two times are strings and
    both normalise.  [None] for every other day. *)
Definition clean_record (day : value) : option dict :=
  match at_path day [lit "date"],
        at_path day [lit "time"; lit "sahur"],
        at_path day [lit "time"; lit "iftar"] with
  | Some date, Some (PyStr sahur), Some (PyStr iftar) =>
      if truthy date && truthy (PyStr sahur) && truthy (PyStr iftar) then
        match _to_24h_hhmm sahur, _to_24h_hhmm iftar with
        | inr sahur_24, inr iftar_24 =>
            Some [ (lit "date", date);
                   (lit "sahur", PyStr sahur_24);
                   (lit "iftar", PyStr iftar_24);
                   (lit "hijri_readable", or_none (member day (lit "hijri_readable")));
                   (lit "day", or_none (member day (lit "day"))) ]
        | _, _ => None
        end
      else None
  | _, _, _ => None
  end.

Definition keep (rs : list (option dict)) : list dict :=
  flat_map (fun r => match r with Some x => [x] | None => [] end) rs.

(** The clean records of the well-formed days of a list, in its order. *)
Definition clean_records (days : list value) : list dict :=
  keep (map clean_record days).

(** A field is missing or empty (false in a condition). *)
Definition absent_or_empty (o : option value) : Prop :=
  match o with
  | None => True
  | Some v => truthy v = false
  end.

Definition fails_to_normalize (o : option value) : Prop :=
  exists s e, o = Some (PyStr s) /\ _to_24h_hhmm s = raise e.

(** A day the filter has to drop. *)
Definition malformed (day : value) : Prop :=
  absent_or_empty (at_path day [lit "date"]) \/
  absent_or_empty (at_path day [lit "time"; lit "sahur"]) \/
  absent_or_empty (at_path day [lit "time"; lit "iftar"]) \/
  fails_to_normalize (at_path day [lit "time"; lit "sahur"]) \/
  fails_to_normalize (at_path day [lit "time"; lit "iftar"]).

(** A time field is a string whenever it is present and not empty. *)
Definition text_if_any (o : option value) : Prop :=
  match o with
  | Some v => truthy v = true -> exists s, v = PyStr s
  | None => True
  end.

(** The types the loop relies on: a day is an object, its [time], when
    present, is an object, and the two times, when not empty, are strings. *)
Definition well_typed (day : value) : Prop :=
  exists items,
    day = PyDict items /\
    match lookup items (lit "time") with
    | None => True
    | Some (PyDict t) =>
        text_if_any (lookup t (lit "sahur")) /\
        text_if_any (lookup t (lit "iftar"))
    | Some _ => False
    end.

Definition record_keys : list str :=
  [lit "date"; lit "sahur"; lit "iftar"; lit "hijri_readable"; lit "day"].

(** ** Sample requests *)

Definition sample_env (name : str) : option str :=
  if str_eqb name (lit "ISLAMIC_API_KEY") then Some (lit "secret") else None.

(** The body [{"data": {"fasting": fasting}}]. *)
Definition body_of (fasting : value) : value :=
  PyDict [(lit "data", PyDict [(lit "fasting", fasting)])].

(** An upstream that answers every request with the same body. *)
Definition answer (payload : value) (url : str) (params : list (str * str))
  : response := Decoded payload.

Definition sample_lat : str := lit "40.7128".
Definition sample_lon : str := lit "-74.0060".

Definition sample_day : value :=
  PyDict [ (lit "date", PyStr (lit "2025-03-01"));
           (lit "day", PyInt 1);
           (lit "hijri_readable", PyStr (lit "1 Ramadan 1446"));
           (lit "time", PyDict [ (lit "sahur", PyStr (lit "5:42 AM"));
                                 (lit "iftar", PyStr (lit "5:48 PM")) ]) ].

Definition sample_clean : dict :=
  [ (lit "date", PyStr (lit "2025-03-01"));
    (lit "sahur", PyStr (lit "05:42"));
    (lit "iftar", PyStr (lit "17:48"));
    (lit "hijri_readable", PyStr (lit "1 Ramadan 1446"));
    (lit "day", PyInt 1) ].

Definition no_sahur_day : value :=
  PyDict [ (lit "date", PyStr (lit "2025-03-02"));
           (lit "time", PyDict [ (lit "iftar", PyStr (lit "5:49 PM")) ]) ].

Definition null_time_day : value :=
  PyDict [ (lit "date", PyStr (lit "2025-03-02")); (lit "time", PyNone) ].

Definition out_of_range_day : value :=
  PyDict [ (lit "date", PyStr (lit "2025-03-01"));
           (lit "time", PyDict [ (lit "sahur", PyStr (lit "25:99"));
                                 (lit "iftar", PyStr (lit "5:48 PM")) ]) ].

Definition out_of_range_clean : dict :=
  [ (lit "date", PyStr (lit "2025-03-01"));
    (lit "sahur", PyStr (lit "25:99"));
    (lit "iftar", PyStr (lit "17:48"));
    (lit "hijri_readable", PyNone);
    (lit "day", PyNone) ].

(** ** Further notions *)


Definition time_of_day_check (h m : Z) : bool :=
  Bool.eqb (time_of_day (two_digits h ++ lit ":" ++ two_digits m))
           ((h <=? 23) && (m <=? 59))%Z.

Definition ascii_digit (c : char) : Prop := (48 <= c <= 57)%N.

Definition ascii_digits_check (n : Z) : bool :=
  forallb (fun c => (48 <=? c) && (c <=? 57))%N (two_digits n).

(** A value a [for] loop cannot iterate. *)
Definition not_iterable (v : value) : Prop :=
  match v with
  | PyNone | PyBool _ | PyInt _ | PyFloat _ => True
  | _ => False
  end.

(** A value that is no JSON object. *)
Definition not_object (v : value) : Prop :=
  match v with
  | PyDict _ => False
  | _ => True
  end.

(** A day the loop cannot read: it is no object, or its [time] is present
    and no object. *)
Definition unreadable (day : value) : Prop :=
  not_object day \/
  exists time_obj, member day (lit "time") = Some time_obj /\ not_object time_obj.

Definition key_missing (getenv : str -> option str) : Prop :=
  getenv (lit "ISLAMIC_API_KEY") = None \/
  getenv (lit "ISLAMIC_API_KEY") = Some [].

Definition bool_day : value := PyBool true.

(** The value of a decimal digit: its distance from the digit zero of its
    script (48 for the ASCII digits); 0 for any other code point. *)
Definition digit_value (c : char) : Z :=
  match find (fun z => (z <=? c) && (c <? z + 10))%N Py.decimal_zeros with
  | Some z => Z.of_N c - Z.of_N z
  | None => 0
  end.

(** The number a text of decimal digits denotes, most significant digit
    first. *)
Fixpoint number_from (acc : Z) (s : str) : Z :=
  match s with
  | [] => acc
  | c :: s' => number_from (10 * acc + digit_value c) s'
  end.

Definition number_of (s : str) : Z := number_from 0 s.

(** A run of white space, possibly empty. *)
Definition blanks (ws : str) : Prop := Forall (fun c => Py.isspace c = true) ws.

(** * Facts about code points *)

Ltac bool_to_prop :=
  repeat match goal with
  | H : _ && _ = true |- _ => apply andb_true_iff in H; destruct H
  | H : _ || _ = true |- _ => apply orb_true_iff in H; destruct H
  | H : _ || _ = false |- _ => apply orb_false_iff in H; destruct H
  | H : negb _ = true |- _ => apply negb_true_iff in H
  | H : negb _ = false |- _ => apply negb_false_iff in H
  | H : N.eqb _ _ = true |- _ => apply N.eqb_eq in H
  | H : N.eqb _ _ = false |- _ => apply N.eqb_neq in H
  | H : N.leb _ _ = true |- _ => apply N.leb_le in H
  | H : N.leb _ _ = false |- _ => apply N.leb_gt in H
  | H : N.ltb _ _ = true |- _ => apply N.ltb_lt in H
  | H : N.ltb _ _ = false |- _ => apply N.ltb_ge in H
  end.

Lemma isspace_spaces c : Py.isspace c = true -> In c spaces.
Proof.
  unfold Py.isspace. intros H. bool_to_prop; simpl; lia.
Qed.

Lemma spaces_not_decimal : forallb (fun c => negb (Py.isdecimal c)) spaces = true.
Proof. vm_compute. reflexivity. Qed.

Lemma decimal_not_space c : Py.isdecimal c = true -> Py.isspace c = false.
Proof.
  intros Hd. destruct (Py.isspace c) eqn:Hs; [|reflexivity].
  apply isspace_spaces in Hs.
  pose proof spaces_not_decimal as Hall. rewrite forallb_forall in Hall.
  apply Hall in Hs. rewrite Hd in Hs. discriminate.
Qed.

Lemma decimal_bound c d : Py.decimal c = Some d -> (0 <= d <= 9)%Z.
Proof.
  unfold Py.decimal. destruct (find _ _) as [z|] eqn:Hf; [|discriminate].
  intros [= <-]. apply find_some in Hf. destruct Hf as [_ Hf].
  bool_to_prop. lia.
Qed.

Lemma isdecimal_decimal c : Py.isdecimal c = true -> exists d, Py.decimal c = Some d /\ (0 <= d <= 9)%Z.
Proof.
  unfold Py.isdecimal. destruct (Py.decimal c) as [d|] eqn:Hd; [|discriminate].
  intros _. exists d. split; [reflexivity|]. eapply decimal_bound; eauto.
Qed.


(** * The matcher against the relational reading *)

Lemma rep_spec p s : forall lo hi rest,
  In rest (re.rep p lo hi s) <->
  exists w, s = w ++ rest /\ Forall (fun c => p c = true) w /\
            (lo <= List.length w)%nat /\ within hi (List.length w).
Proof.
  induction s as [|c s IH]; intros lo hi rest.
  - simpl. split.
    + destruct lo; simpl; [|tauto]. intros [<-|[]]. exists []. 
      repeat split; auto. destruct hi; simpl; auto with arith.
    + intros (w & Hs & _ & Hlo & _). symmetry in Hs.
      apply app_eq_nil in Hs. destruct Hs as [-> ->].
      simpl in Hlo. destruct lo; [left; reflexivity | lia].
  - assert (Hstop : In rest (match lo with O => [c :: s] | S _ => [] end) <->
                    lo = O /\ rest = c :: s).
    { destruct lo; simpl; intuition congruence. }
    assert (Hnil : lo = O /\ rest = c :: s ->
                   exists w, c :: s = w ++ rest /\ Forall (fun c => p c = true) w /\
                             (lo <= List.length w)%nat /\ within hi (List.length w)).
    { intros [-> ->]. exists []. repeat split; auto. destruct hi; simpl; auto with arith. }
    assert (Hcons : forall w, c :: s = w ++ rest -> Forall (fun c => p c = true) w ->
              (lo <= List.length w)%nat -> within hi (List.length w) ->
              (lo = O /\ rest = c :: s) \/
              (p c = true /\ re.more hi = true /\
               exists w', s = w' ++ rest /\ Forall (fun c => p c = true) w' /\
                 (Nat.pred lo <= List.length w')%nat /\
                 within (option_map Nat.pred hi) (List.length w'))).
    { intros [|x w'] Hs Hall Hlo Hhi; simpl in *.
      - left. split; [lia | congruence].
      - right. injection Hs as -> ->. inversion Hall; subst.
        split; [assumption|]. split.
        + destruct hi as [[|h]|]; simpl in *; auto; lia.
        + exists w'. repeat split; auto; [lia|].
          destruct hi as [h|]; simpl in *; auto; lia. }
    simpl re.rep. destruct (p c && re.more hi) eqn:E.
    + apply andb_true_iff in E. destruct E as [Hp Hm].
      rewrite in_app_iff, Hstop, IH. split.
      * intros [(w & -> & Hall & Hlo & Hhi) | Hn]; [|auto].
        exists (c :: w). repeat split; auto; simpl; [lia|].
        destruct hi as [[|h]|]; simpl in *; auto; try discriminate; lia.
      * intros (w & Hs & Hall & Hlo & Hhi).
        destruct (Hcons w Hs Hall Hlo Hhi) as [Hn | (_ & _ & Hw)]; auto.
    + rewrite Hstop. split; [auto|].
      intros (w & Hs & Hall & Hlo & Hhi).
      destruct (Hcons w Hs Hall Hlo Hhi) as [Hn | (Hp & Hm & _)]; auto.
      rewrite Hp, Hm in E. discriminate.
Qed.

Lemma run_matches ic r : forall s caps rest caps',
  In (rest, caps') (re.run ic r s caps) <-> matches ic r s caps rest caps'.
Proof.
  induction r as [c | p | a IHa b IHb | a IHa b IHb | lo hi p | name a IHa];
    intros s caps rest caps'; simpl re.run.
  - destruct s as [|x s].
    + split; [intros [] | inversion 1].
    + destruct (re.lit_matches ic c x) eqn:E; simpl.
      * split.
        -- intros [[= <- <-] | []]. now constructor.
        -- inversion 1; subst. now left.
      * split; [intros [] | inversion 1; congruence].
  - destruct s as [|x s].
    + split; [intros [] | inversion 1].
    + destruct (p x) eqn:E; simpl.
      * split.
        -- intros [[= <- <-] | []]. now constructor.
        -- inversion 1; subst. now left.
      * split; [intros [] | inversion 1; congruence].
  - rewrite in_flat_map. split.
    + intros ([mid caps1] & H1 & H2). simpl in H2.
      apply IHa in H1. apply IHb in H2. econstructor; eauto.
    + inversion 1; subst. exists (mid, caps1). split.
      * now apply IHa.
      * simpl. now apply IHb.
  - rewrite in_app_iff, IHa, IHb. split.
    + intros [H | H]; [now apply M_alt_l | now apply M_alt_r].
    + inversion 1; subst; auto.
  - rewrite in_map_iff. split.
    + intros (x & [= <- <-] & Hin). apply rep_spec in Hin.
      destruct Hin as (w & -> & Hall & Hlo & Hhi). now constructor.
    + inversion 1; subst. exists rest. split; [reflexivity|].
      apply rep_spec. eauto.
  - rewrite in_map_iff. split.
    + intros ([rest0 caps0] & [= <- <-] & Hin). simpl.
      apply IHa in Hin. now constructor.
    + inversion 1; subst. exists (rest, caps1). split; [reflexivity|].
      now apply IHa.
Qed.

Lemma matches_suffix ic r s caps rest caps' :
  matches ic r s caps rest caps' -> exists w, s = w ++ rest.
Proof.
  induction 1.
  - now exists [x].
  - now exists [x].
  - destruct IHmatches1 as [w1 ->]. destruct IHmatches2 as [w2 ->].
    exists (w1 ++ w2). now rewrite app_assoc.
  - assumption.
  - assumption.
  - now exists w.
  - assumption.
Qed.

Lemma taken_app w rest : re.taken (w ++ rest) rest = w.
Proof.
  unfold re.taken. rewrite length_app.
  replace (List.length w + List.length rest - List.length rest)%nat
    with (List.length w) by lia.
  rewrite firstn_app, firstn_all, Nat.sub_diag. simpl. apply app_nil_r.
Qed.


(** * The pattern [\d{1,2}:\d{2}] *)

Ltac inv_matches :=
  repeat match goal with
  | H : matches _ (re.Cat _ _) _ _ _ _ |- _ => inversion H; subst; clear H
  | H : matches _ (re.Alt _ _) _ _ _ _ |- _ => inversion H; subst; clear H
  | H : matches _ (re.Lit _) _ _ _ _ |- _ => inversion H; subst; clear H
  | H : matches _ (re.Class _) _ _ _ _ |- _ => inversion H; subst; clear H
  | H : matches _ (re.Repeat _ _ _) _ _ _ _ |- _ => inversion H; subst; clear H
  | H : matches _ (re.Group _ _) _ _ _ _ |- _ => inversion H; subst; clear H
  end.

Lemma fullmatch_matches ic r s :
  re.fullmatch ic r s <> None <-> exists caps, matches ic r s [] [] caps.
Proof.
  unfold re.fullmatch.
  destruct (find _ _) as [[rest caps]|] eqn:Hf; simpl.
  - apply find_some in Hf. destruct Hf as [Hin Hnil]. simpl in Hnil.
    destruct rest; [|discriminate]. apply run_matches in Hin.
    split; [eauto | discriminate].
  - split; [congruence|]. intros [caps Hm]. apply run_matches in Hm.
    eapply find_none in Hf; eauto. discriminate.
Qed.

Lemma lit_matches_exact c x : re.lit_matches false c x = true <-> x = c.
Proof.
  unfold re.lit_matches, char_eqb. rewrite orb_false_r. apply N.eqb_eq.
Qed.

Lemma hhmm_regex_matches s :
  re.fullmatch false hhmm_regex s <> None <-> hhmm_text s.
Proof.
  rewrite fullmatch_matches. unfold hhmm_regex, hhmm_text. split.
  - intros [caps H]. inv_matches. rewrite app_nil_r.
    match goal with H : re.lit_matches _ _ _ = true |- _ =>
      apply lit_matches_exact in H; subst end.
    match goal with |- context [?a ++ _ :: ?b] => exists a, b end.
    simpl in *. repeat split; auto; lia.
  - intros (hh & mm & -> & Hh & Hm & Dh & Dm). exists [].
    eapply M_cat.
    + constructor; [exact Dh | lia | simpl; lia].
    + eapply M_cat.
      * constructor. now apply lit_matches_exact.
      * rewrite <- (app_nil_r mm) at 1.
        constructor; [exact Dm | lia | simpl; lia].
Qed.

Lemma split_none sep (s : str) :
  Forall (fun c => char_eqb c sep = false) s -> Py.split sep s = [s].
Proof.
  induction 1 as [|c s Hc _ IH]; simpl; [reflexivity|].
  now rewrite Hc, IH.
Qed.

Lemma split_one sep (a b : str) :
  Forall (fun c => char_eqb c sep = false) a ->
  Forall (fun c => char_eqb c sep = false) b ->
  Py.split sep (a ++ sep :: b) = [a; b].
Proof.
  intros Ha Hb. induction Ha as [|c a Hc _ IH]; simpl.
  - unfold char_eqb at 1. rewrite N.eqb_refl. now rewrite split_none.
  - now rewrite Hc, IH.
Qed.

Lemma decimal_digits_no_colon (s : str) :
  Forall decimal_digit s -> Forall (fun c => char_eqb c (re.chr ":") = false) s.
Proof.
  apply Forall_impl. intros c Hc. unfold decimal_digit in Hc.
  destruct (char_eqb c (re.chr ":")) eqn:E; [|reflexivity].
  apply N.eqb_eq in E. subst c. vm_compute in Hc. discriminate.
Qed.

Lemma int_one_or_two (s : str) :
  Forall decimal_digit s -> (List.length s = 1 \/ List.length s = 2)%nat ->
  exists n, Py.int s = Some n /\ (0 <= n <= 99)%Z.
Proof.
  intros Hd Hl. destruct s as [|a [|b [|c s]]]; simpl in Hl; try lia.
  - inversion Hd; subst. destruct (isdecimal_decimal _ H1) as (d & Hda & Hb).
    exists d. unfold Py.int. simpl. rewrite Hda. split; [reflexivity | lia].
  - inversion Hd as [|? ? Ha Hd']; subst. inversion Hd' as [|? ? Hb _]; subst.
    destruct (isdecimal_decimal _ Ha) as (da & Hda & Hba).
    destruct (isdecimal_decimal _ Hb) as (db & Hdb & Hbb).
    exists (10 * (10 * 0 + da) + db)%Z. unfold Py.int. simpl Py.int_digits.
    rewrite Hda, Hdb. split; [reflexivity | lia].
Qed.

Lemma zrange_In n : forall lo x,
  (lo <= x < lo + Z.of_nat n)%Z -> In x (zrange lo n).
Proof.
  induction n as [|n IH]; intros lo x Hx; [lia|].
  simpl. destruct (Z.eq_dec lo x); [now left | right].
  apply IH. lia.
Qed.

Lemma str_eqb_eq (a : str) : forall b, str_eqb a b = true -> a = b.
Proof.
  induction a as [|x a IH]; intros [|y b]; simpl; try discriminate; auto.
  intros H. apply andb_true_iff in H. destruct H as [H1 H2].
  apply N.eqb_eq in H1. subst. f_equal. now apply IH.
Qed.

Lemma format_02d_two_digits n :
  (0 <= n <= 99)%Z -> Py.format_02d n = two_digits n.
Proof.
  intros Hn.
  assert (H : forallb (fun k => str_eqb (Py.format_02d k) (two_digits k))
                (zrange 0 100) = true) by (vm_compute; reflexivity).
  rewrite forallb_forall in H. apply str_eqb_eq, H, zrange_In. lia.
Qed.

Lemma strip_hhmm4 a c d :
  Py.isdecimal a = true -> Py.isdecimal d = true ->
  Py.strip [a; 58%N; c; d] = [a; 58%N; c; d].
Proof.
  intros Ha Hd. apply decimal_not_space in Ha, Hd.
  unfold Py.strip, Py.rstrip. simpl. rewrite Ha. simpl. now rewrite Hd.
Qed.

Lemma strip_hhmm5 a b c d :
  Py.isdecimal a = true -> Py.isdecimal d = true ->
  Py.strip [a; b; 58%N; c; d] = [a; b; 58%N; c; d].
Proof.
  intros Ha Hd. apply decimal_not_space in Ha, Hd.
  unfold Py.strip, Py.rstrip. simpl. rewrite Ha. simpl. now rewrite Hd.
Qed.

Lemma hhmm_text_strip s : hhmm_text s -> Py.strip s = s.
Proof.
  intros (hh & mm & -> & Hh & Hm & Dh & Dm).
  destruct mm as [|c [|d [|? ?]]]; try discriminate.
  inversion Dm as [|? ? Hc Dm']; subst. inversion Dm' as [|? ? Hd _]; subst.
  destruct hh as [|a [|b [|? ?]]]; simpl in Hh; try lia;
    inversion Dh; subst.
  - now apply strip_hhmm4.
  - now apply strip_hhmm5.
Qed.


(** * The pattern of ["%I:%M %p"] *)

Open Scope N_scope.

Lemma taken_1 a r : re.taken (a :: r) r = [a].
Proof. exact (taken_app [a] r). Qed.

Lemma taken_2 a b r : re.taken (a :: b :: r) r = [a; b].
Proof. exact (taken_app [a; b] r). Qed.

Lemma in_range_iff lo hi a b x :
  lit lo = [a] -> lit hi = [b] ->
  (re.in_range lo hi x = true <-> a <= x <= b).
Proof.
  unfold re.in_range. intros -> ->. rewrite andb_true_iff, !N.leb_le. tauto.
Qed.

Lemma lit_matches_ic c x :
  ~ (65 <= c <= 90) ->
  (re.lit_matches true c x = true <-> x = c \/ (65 <= x <= 90 /\ x + 32 = c)).
Proof.
  intros Hc. unfold re.lit_matches, char_eqb, Py.lower. simpl andb.
  rewrite orb_true_iff, !N.eqb_eq.
  destruct ((65 <=? c) && (c <=? 90)) eqn:Ec.
  { apply andb_true_iff in Ec. rewrite !N.leb_le in Ec. tauto. }
  destruct ((65 <=? x) && (x <=? 90)) eqn:Ex.
  - apply andb_true_iff in Ex. rewrite !N.leb_le in Ex. intuition lia.
  - apply andb_false_iff in Ex. rewrite !N.leb_gt in Ex. intuition lia.
Qed.

Ltac char_facts :=
  repeat match goal with
  | H : re.lit_matches true (re.chr ?c) _ = true |- _ =>
      let v := eval vm_compute in (re.chr c) in
      change (re.chr c) with v in H;
      apply lit_matches_ic in H; [|lia]
  | H : re.in_range ?lo ?hi _ = true |- _ =>
      let a := eval vm_compute in (re.chr lo) in
      let b := eval vm_compute in (re.chr hi) in
      apply (@in_range_iff lo hi a b _ eq_refl eq_refl) in H
  end.

Lemma M_group_app ic name a w rest caps caps1 :
  matches ic a (w ++ rest) caps rest caps1 ->
  matches ic (re.Group name a) (w ++ rest) caps rest ((name, w) :: caps1).
Proof.
  intros H. apply M_group with (name := name) in H.
  now rewrite taken_app in H.
Qed.

Lemma in_range_intro lo hi a b x :
  lit lo = [a] -> lit hi = [b] -> a <= x <= b -> re.in_range lo hi x = true.
Proof. intros Ha Hb. now apply in_range_iff. Qed.

Lemma lit_ic_intro c x :
  x = c \/ x + 32 = c /\ 65 <= x <= 90 -> re.lit_matches true c x = true.
Proof.
  unfold re.lit_matches, char_eqb, Py.lower. simpl andb.
  intros [-> | [<- Hx]].
  - now rewrite N.eqb_refl.
  - apply orb_true_iff. right.
    replace ((65 <=? x) && (x <=? 90)) with true
      by (symmetry; apply andb_true_iff; rewrite !N.leb_le; lia).
    replace ((65 <=? x + 32) && (x + 32 <=? 90)) with false
      by (symmetry; apply andb_false_iff; rewrite !N.leb_gt; lia).
    apply N.eqb_refl.
Qed.

Lemma hour_matches hh rest caps :
  hour_text hh ->
  matches true datetime.directive_I (hh ++ rest) caps rest
    (("I"%string, hh) :: caps).
Proof.
  intros Hh. apply M_group_app.
  destruct Hh as [(a & -> & Ha) | [(b & -> & Hb) | (b & -> & Hb)]]; simpl app.
  - apply M_alt_r, M_alt_r, M_class.
    now apply (@in_range_intro "1" "9" 49 57).
  - apply M_alt_l. eapply M_cat.
    + apply M_lit, lit_ic_intro. now left.
    + apply M_class. now apply (@in_range_intro "0" "2" 48 50).
  - apply M_alt_r, M_alt_l. eapply M_cat.
    + apply M_lit, lit_ic_intro. now left.
    + apply M_class. now apply (@in_range_intro "1" "9" 49 57).
Qed.

Lemma minute_matches mm rest caps :
  minute_text mm ->
  matches true datetime.directive_M (mm ++ rest) caps rest
    (("M"%string, mm) :: caps).
Proof.
  intros Hm. apply M_group_app.
  destruct Hm as [(a & d & -> & Ha & Hd) | (d & -> & Hd)]; simpl app.
  - apply M_alt_l. eapply M_cat.
    + apply M_class. now apply (@in_range_intro "0" "5" 48 53).
    + now apply M_class.
  - apply M_alt_r. now apply M_class.
Qed.

Lemma meridiem_matches ap rest caps :
  meridiem_text ap ->
  matches true datetime.directive_p (ap ++ rest) caps rest
    (("p"%string, ap) :: caps).
Proof.
  intros (x & y & -> & Hx & Hy). apply M_group_app. simpl app.
  assert (Hm : re.lit_matches true (re.chr "m") y = true).
  { apply lit_ic_intro. change (re.chr "m") with 109. lia. }
  destruct Hx as [Hx | [Hx | [Hx | Hx]]].
  - apply M_alt_l. eapply M_cat; apply M_lit; [|exact Hm].
    apply lit_ic_intro. change (re.chr "a") with 97. lia.
  - apply M_alt_l. eapply M_cat; apply M_lit; [|exact Hm].
    apply lit_ic_intro. change (re.chr "a") with 97. lia.
  - apply M_alt_r. eapply M_cat; apply M_lit; [|exact Hm].
    apply lit_ic_intro. change (re.chr "p") with 112. lia.
  - apply M_alt_r. eapply M_cat; apply M_lit; [|exact Hm].
    apply lit_ic_intro. change (re.chr "p") with 112. lia.
Qed.

Lemma format_regex_matches s rest caps :
  matches true datetime.format_regex s [] rest caps <->
  exists hh mm ws ap,
    clock12_parts s hh mm ws ap rest /\
    caps = [("p"%string, ap); ("M"%string, mm); ("I"%string, hh)].
Proof.
  unfold datetime.format_regex, datetime.directive_I, datetime.directive_M,
    datetime.directive_p, clock12_parts. split.
  - intros H. inv_matches; rewrite ?taken_1, ?taken_2; char_facts.
    all: match goal with
         | Hw : Forall _ ?w
           |- exists hh mm ws ap, _ /\ [(_, ?ap0); (_, ?mm0); (_, ?hh0)] = _ =>
             exists hh0, mm0, w, ap0
         end.
    all: change (lit ":") with [58]; simpl app.
    all: repeat match goal with
         | H : ?x = ?c \/ _ |- _ =>
             assert (x = c) by (clear - H; lia); clear H; subst x
         end.
    all: split; [|reflexivity].
    all: split; [reflexivity|].
    all: split;
      [ unfold hour_text;
        first [ left; eexists; split; [reflexivity | lia]
              | right; left; eexists; split; [reflexivity | lia]
              | right; right; eexists; split; [reflexivity | lia] ] |].
    all: split;
      [ unfold minute_text, decimal_digit;
        first [ left; eexists _, _; split; [reflexivity | split; [lia | assumption]]
              | right; eexists; split; [reflexivity | assumption] ] |].
    all: split;
      [ split; [destruct w; simpl in *; [lia | discriminate] | assumption] |].
    all: eexists _, _; split; [reflexivity | split; lia].
  - intros (hh & mm & ws & ap & (-> & Hh & Hm & [Hw0 Hw] & Ha) & ->).
    change (lit ":") with [58]. simpl app.
    eapply M_cat; [now apply hour_matches|].
    eapply M_cat; [apply M_lit, lit_ic_intro; now left|].
    eapply M_cat; [now apply minute_matches|].
    eapply M_cat; [|now apply meridiem_matches].
    apply M_repeat; [assumption | | exact I].
    destruct ws; [congruence | simpl; lia].
Qed.


(** * A 12-hour text has one decomposition *)

Lemma span_unique (q : char -> bool) (w : str) : forall w' t t',
  Forall (fun c => q c = true) w -> Forall (fun c => q c = true) w' ->
  stops q t -> stops q t' ->
  w ++ t = w' ++ t' -> w = w' /\ t = t'.
Proof.
  induction w as [|c w IH]; intros [|c' w'] t t' Hw Hw' Ht Ht' E; simpl in E.
  - auto.
  - subst t. simpl in Ht. inversion Hw'; subst. congruence.
  - subst t'. simpl in Ht'. inversion Hw; subst. congruence.
  - injection E as <- E. inversion Hw; subst. inversion Hw'; subst.
    destruct (IH w' t t') as [-> ->]; auto.
Qed.

Lemma ascii_digit_not_space a : 48 <= a <= 57 -> Py.isspace a = false.
Proof.
  intros Ha. destruct (Py.isspace a) eqn:E; [|reflexivity].
  apply isspace_spaces in E. simpl in E. lia.
Qed.

Lemma hour_text_no_colon hh :
  hour_text hh -> Forall (fun c => negb (char_eqb c 58) = true) hh.
Proof.
  assert (H : forall a, 48 <= a <= 57 -> negb (char_eqb a 58) = true).
  { intros a Ha. apply negb_true_iff, N.eqb_neq. lia. }
  intros [(a & -> & Ha) | [(b & -> & Hb) | (b & -> & Hb)]];
    repeat constructor; apply H; lia.
Qed.

Lemma minute_text_no_space mm :
  minute_text mm -> Forall (fun c => negb (Py.isspace c) = true) mm.
Proof.
  unfold decimal_digit.
  intros [(a & d & -> & Ha & Hd) | (d & -> & Hd)]; repeat constructor;
    apply negb_true_iff;
    first [now apply decimal_not_space | apply ascii_digit_not_space; lia].
Qed.

Lemma meridiem_text_stops ap rest :
  meridiem_text ap -> stops Py.isspace (ap ++ rest).
Proof.
  intros (x & y & -> & Hx & _). simpl.
  destruct (Py.isspace x) eqn:E; [|reflexivity].
  apply isspace_spaces in E. simpl in E. lia.
Qed.

Lemma blank_text_stops ws rest :
  blank_text ws -> stops (fun c => negb (Py.isspace c)) (ws ++ rest).
Proof.
  intros [Hn Hw]. destruct ws as [|c ws]; [congruence|].
  inversion Hw; subst. simpl. now apply negb_false_iff.
Qed.

Lemma clock12_parts_unique s hh mm ws ap rest hh' mm' ws' ap' rest' :
  clock12_parts s hh mm ws ap rest ->
  clock12_parts s hh' mm' ws' ap' rest' ->
  hh = hh' /\ mm = mm' /\ ap = ap' /\ rest = rest'.
Proof.
  intros (-> & Hh & Hm & Hw & Ha) (E & Hh' & Hm' & Hw' & Ha').
  change (lit ":") with [58] in E. simpl app in E.
  apply span_unique with (q := fun c => negb (char_eqb c 58)) in E;
    try (now apply hour_text_no_colon); try reflexivity.
  destruct E as [<- E]. injection E as E.
  apply span_unique with (q := fun c => negb (Py.isspace c)) in E;
    try (now apply minute_text_no_space); try (now apply blank_text_stops).
  destruct E as [<- E].
  apply span_unique with (q := Py.isspace) in E;
    try (now apply Hw); try (now apply Hw');
    try (now apply meridiem_text_stops).
  destruct E as [<- E].
  destruct Ha as (x & y & -> & _). destruct Ha' as (x' & y' & -> & _).
  injection E as <- <- <-. auto.
Qed.

Lemma match_format_regex s hh mm ws ap :
  clock12_parts s hh mm ws ap [] ->
  re.match_ true datetime.format_regex s =
  Some {| re.m_end := List.length s;
          re.groupdict := [("p"%string, ap); ("M"%string, mm); ("I"%string, hh)] |}.
Proof.
  intros Hp. unfold re.match_.
  assert (Hin : In ([], [("p"%string, ap); ("M"%string, mm); ("I"%string, hh)])
                   (re.run true datetime.format_regex s [])).
  { apply run_matches, format_regex_matches. exists hh, mm, ws, ap. auto. }
  destruct (re.run true datetime.format_regex s []) as [|[rest' caps'] l] eqn:E;
    [destruct Hin|].
  assert (Hin' : In (rest', caps') (re.run true datetime.format_regex s []))
    by (rewrite E; now left).
  apply run_matches, format_regex_matches in Hin'.
  destruct Hin' as (hh' & mm' & ws' & ap' & Hp' & ->).
  destruct (clock12_parts_unique Hp Hp') as (<- & <- & <- & <-).
  simpl. unfold re.to_match. simpl. now rewrite Nat.sub_0_r.
Qed.

Lemma match_format_regex_inv s found :
  re.match_ true datetime.format_regex s = Some found ->
  re.m_end found = List.length s ->
  clock12_text s.
Proof.
  unfold re.match_.
  destruct (re.run true datetime.format_regex s []) as [|[rest caps] l] eqn:E;
    [discriminate|].
  simpl. intros [= <-]. simpl. intros Hend.
  assert (Hin : In (rest, caps) (re.run true datetime.format_regex s []))
    by (rewrite E; now left).
  apply run_matches, format_regex_matches in Hin.
  destruct Hin as (hh & mm & ws & ap & Hp & ->).
  exists hh, mm, ws, ap.
  assert (rest = []); [|now subst].
  destruct Hp as (Hs & _). rewrite Hs in Hend.
  rewrite !length_app in Hend. simpl in Hend.
  destruct rest; [reflexivity | simpl in Hend; lia].
Qed.


(** * [strptime] on 12-hour texts *)

Lemma find_head (A : Type) (f : A -> bool) x l :
  f x = true -> find f (x :: l) = Some x.
Proof. intros H. simpl. now rewrite H. Qed.

Lemma decimal_ascii a :
  48 <= a <= 57 -> Py.decimal a = Some (Z.of_N (a - 48)).
Proof.
  intros Ha. unfold Py.decimal, Py.decimal_zeros.
  rewrite find_head; [reflexivity|].
  apply andb_true_iff. rewrite N.leb_le, N.ltb_lt. lia.
Qed.

Lemma hour_value hh :
  hour_text hh -> exists h, Py.int hh = Some h /\ (1 <= h <= 12)%Z.
Proof.
  intros [(a & -> & Ha) | [(b & -> & Hb) | (b & -> & Hb)]];
    unfold Py.int; cbn [Py.int_digits].
  - rewrite decimal_ascii by lia. eexists. split; [reflexivity | lia].
  - rewrite (@decimal_ascii 49), decimal_ascii by lia.
    eexists. split; [reflexivity | lia].
  - rewrite (@decimal_ascii 48), decimal_ascii by lia.
    eexists. split; [reflexivity | lia].
Qed.

Lemma minute_value mm :
  minute_text mm -> exists m, Py.int mm = Some m /\ (0 <= m <= 59)%Z.
Proof.
  unfold decimal_digit.
  intros [(a & d & -> & Ha & Hd) | (d & -> & Hd)];
    unfold Py.int; cbn [Py.int_digits];
    destruct (isdecimal_decimal _ Hd) as (v & Hd0 & Hv); rewrite ?Hd0.
  - rewrite decimal_ascii by lia. eexists. split; [reflexivity | lia].
  - eexists. split; [reflexivity | lia].
Qed.

Lemma meridiem_lower ap :
  meridiem_text ap ->
  map Py.lower ap = fst datetime.am_pm \/ map Py.lower ap = snd datetime.am_pm.
Proof.
  intros (x & y & -> & Hx & Hy).
  destruct Hx as [-> | [-> | [-> | ->]]], Hy as [-> | ->];
    vm_compute; auto.
Qed.

Lemma strptime_clock12 s :
  clock12_text s -> exists dt, datetime.strptime_I_M_p s = ret dt.
Proof.
  intros (hh & mm & ws & ap & Hp).
  unfold datetime.strptime_I_M_p. rewrite (match_format_regex Hp).
  cbn [re.m_end re.groupdict]. rewrite Nat.eqb_refl. cbn [negb].
  destruct Hp as (_ & Hh & Hm & _ & Ha).
  destruct (hour_value Hh) as (h & Ih & Bh).
  destruct (minute_value Hm) as (m & Im & Bm).
  change (re.get "I" _) with (Some hh).
  change (re.get "M" _) with (Some mm).
  change (re.get "p" _) with (Some ap).
  unfold datetime.int_or_raise. rewrite Ih, Im. cbn [bind ret].
  match goal with |- exists dt, datetime.make ?h' m = _ =>
    assert (Hh' : (0 <= h' <= 23)%Z) end.
  { destruct (meridiem_lower Ha) as [-> | ->];
      [change (str_eqb (fst datetime.am_pm) []) with false;
       change (str_eqb (fst datetime.am_pm) (fst datetime.am_pm)) with true
      |change (str_eqb (snd datetime.am_pm) []) with false;
       change (str_eqb (snd datetime.am_pm) (fst datetime.am_pm)) with false;
       change (str_eqb (snd datetime.am_pm) (snd datetime.am_pm)) with true];
      cbn [orb]; destruct (h =? 12)%Z eqn:E; cbn [negb]; lia. }
  unfold datetime.make.
  replace ((0 <=? _) && (_ <=? 23))%Z with true
    by (symmetry; apply andb_true_iff; rewrite !Z.leb_le; lia).
  replace ((0 <=? m) && (m <=? 59))%Z with true
    by (symmetry; apply andb_true_iff; rewrite !Z.leb_le; lia).
  eexists. reflexivity.
Qed.

Lemma make_range h m dt :
  datetime.make h m = ret dt ->
  (0 <= datetime.hour dt <= 23)%Z /\ (0 <= datetime.minute dt <= 59)%Z.
Proof.
  unfold datetime.make.
  destruct ((0 <=? h) && (h <=? 23))%Z eqn:Eh; [|discriminate].
  destruct ((0 <=? m) && (m <=? 59))%Z eqn:Em; [|discriminate].
  intros [= <-]. simpl.
  apply andb_true_iff in Eh, Em. rewrite !Z.leb_le in Eh, Em. lia.
Qed.

Lemma bind_ret_inv (A B : Type) (m : result A) (k : A -> result B) b :
  bind m k = ret b -> exists a, m = ret a /\ k a = ret b.
Proof. destruct m as [e|a]; simpl; [discriminate | eauto]. Qed.

Lemma strptime_range s dt :
  datetime.strptime_I_M_p s = ret dt ->
  (0 <= datetime.hour dt <= 23)%Z /\ (0 <= datetime.minute dt <= 59)%Z.
Proof.
  unfold datetime.strptime_I_M_p.
  destruct (re.match_ _ _ _) as [found|]; [|discriminate].
  destruct (negb _); [discriminate|].
  intros H. apply bind_ret_inv in H. destruct H as (h & _ & H).
  apply bind_ret_inv in H. destruct H as (m & _ & H).
  eapply make_range; eauto.
Qed.

Lemma int_or_raise_error s e :
  datetime.int_or_raise s = raise e -> is_value_error e.
Proof.
  unfold datetime.int_or_raise. destruct (Py.int s); [discriminate|].
  intros [= <-]. eexists; reflexivity.
Qed.

Lemma make_error h m e : datetime.make h m = raise e -> is_value_error e.
Proof.
  unfold datetime.make.
  destruct (_ && _)%Z; [destruct (_ && _)%Z; [discriminate|]|];
    intros [= <-]; eexists; reflexivity.
Qed.

Lemma strptime_error s e :
  datetime.strptime_I_M_p s = raise e -> is_value_error e.
Proof.
  unfold datetime.strptime_I_M_p.
  destruct (re.match_ _ _ _) as [found|];
    [|intros [= <-]; eexists; reflexivity].
  destruct (negb _); [intros [= <-]; eexists; reflexivity|].
  destruct (re.get "I" _) as [ti|]; cbn [bind].
  - destruct (datetime.int_or_raise ti) as [e1|h] eqn:E1; cbn [bind].
    + intros [= <-]. eapply int_or_raise_error; eauto.
    + destruct (re.get "M" _) as [tm|]; cbn [bind ret].
      * destruct (datetime.int_or_raise tm) as [e2|m] eqn:E2; cbn [bind].
        -- intros [= <-]. eapply int_or_raise_error; eauto.
        -- apply make_error.
      * apply make_error.
  - destruct (re.get "M" _) as [tm|]; cbn [bind ret].
    + destruct (datetime.int_or_raise tm) as [e2|m] eqn:E2; cbn [bind].
      * intros [= <-]. eapply int_or_raise_error; eauto.
      * apply make_error.
    + apply make_error.
Qed.

Lemma strptime_ok_clock12 s dt :
  datetime.strptime_I_M_p s = ret dt -> clock12_text s.
Proof.
  unfold datetime.strptime_I_M_p.
  destruct (re.match_ _ _ _) as [found|] eqn:E; [|discriminate].
  destruct (negb _) eqn:En; [discriminate|]. intros _.
  apply negb_false_iff, Nat.eqb_eq in En.
  eapply match_format_regex_inv; eauto.
Qed.

Close Scope N_scope.


(** * The two paths of the normaliser *)

Lemma to_24h_hhmm_fast t hh mm :
  Py.strip t = hh ++ lit ":" ++ mm ->
  (List.length hh = 1 \/ List.length hh = 2)%nat -> List.length mm = 2%nat ->
  Forall decimal_digit hh -> Forall decimal_digit mm ->
  exists h m,
    Py.int hh = Some h /\ Py.int mm = Some m /\
    (0 <= h <= 99)%Z /\ (0 <= m <= 99)%Z /\
    _to_24h_hhmm t = ret (two_digits h ++ lit ":" ++ two_digits m).
Proof.
  intros Hs Hh Hm Dh Dm.
  assert (Ht : hhmm_text (Py.strip t)) by (exists hh, mm; auto).
  destruct (int_one_or_two Dh Hh) as (h & Ih & Bh).
  destruct (int_one_or_two Dm (or_intror Hm)) as (m & Im & Bm).
  exists h, m. repeat split; try assumption; try lia.
  unfold _to_24h_hhmm.
  destruct (re.fullmatch false hhmm_regex (Py.strip t)) eqn:E.
  - rewrite Hs. change (hh ++ lit ":" ++ mm) with (hh ++ re.chr ":" :: mm).
    rewrite split_one by now apply decimal_digits_no_colon.
    unfold datetime.int_or_raise. rewrite Ih, Im. simpl bind. unfold ret.
    now rewrite !format_02d_two_digits.
  - apply hhmm_regex_matches in Ht. contradiction.
Qed.

Lemma to_24h_hhmm_slow t :
  ~ hhmm_text (Py.strip t) ->
  _to_24h_hhmm t =
  match datetime.strptime_I_M_p (Py.strip t) with
  | inr dt => ret (datetime.strftime_H_M dt)
  | inl _ => raise (unrecognized t)
  end.
Proof.
  intros Hn. unfold _to_24h_hhmm.
  destruct (re.fullmatch false hhmm_regex (Py.strip t)) eqn:E.
  - exfalso. apply Hn, hhmm_regex_matches. congruence.
  - destruct (datetime.strptime_I_M_p (Py.strip t)) as [e|dt] eqn:Es;
      [|reflexivity].
    apply strptime_error in Es. destruct Es as [msg ->]. reflexivity.
Qed.

Lemma hhmm_text_dec s : hhmm_text s \/ ~ hhmm_text s.
Proof.
  destruct (re.fullmatch false hhmm_regex s) eqn:E.
  - left. apply hhmm_regex_matches. congruence.
  - right. intros H. apply hhmm_regex_matches in H. contradiction.
Qed.

Lemma returns_eq r y : returns r y = true -> r = ret y.
Proof.
  destruct r as [e|x]; simpl; [discriminate|].
  intros H. apply str_eqb_eq in H. now subst.
Qed.

Lemma clock12_check_all :
  forallb (fun lz => forallb (fun pm => forallb (fun h =>
    forallb (clock12_check lz pm h) (zrange 0 60)) (zrange 1 12))
    [false; true]) [false; true] = true.
Proof. vm_compute. reflexivity. Qed.

Lemma two_digits_check_all : forallb two_digits_check (zrange 0 100) = true.
Proof. vm_compute. reflexivity. Qed.

Lemma two_digits_decimal n :
  (0 <= n <= 99)%Z ->
  Forall decimal_digit (two_digits n) /\ Py.int (two_digits n) = Some n.
Proof.
  intros Hn. pose proof two_digits_check_all as H.
  rewrite forallb_forall in H.
  specialize (H n (@zrange_In 100 0 n ltac:(lia))).
  unfold two_digits_check in H. apply andb_true_iff in H.
  destruct H as [H1 H2]. split.
  - apply Forall_forall. now apply forallb_forall.
  - destruct (Py.int (two_digits n)) as [v|]; [|discriminate].
    apply Z.eqb_eq in H2. now subst.
Qed.

Lemma to_24h_hhmm_two_digits h m :
  (0 <= h <= 99)%Z -> (0 <= m <= 99)%Z ->
  _to_24h_hhmm (two_digits h ++ lit ":" ++ two_digits m) =
  ret (two_digits h ++ lit ":" ++ two_digits m).
Proof.
  intros Hh Hm.
  destruct (two_digits_decimal Hh) as [Dh Ih].
  destruct (two_digits_decimal Hm) as [Dm Im].
  assert (Ht : hhmm_text (two_digits h ++ lit ":" ++ two_digits m)).
  { exists (two_digits h), (two_digits m). repeat split; auto. }
  destruct (@to_24h_hhmm_fast _ (two_digits h) (two_digits m)
              (hhmm_text_strip Ht))
    as (h' & m' & Ih' & Im' & _ & _ & E); auto.
  congruence.
Qed.

Lemma to_24h_hhmm_output t y :
  _to_24h_hhmm t = ret y ->
  exists h m, (0 <= h <= 99)%Z /\ (0 <= m <= 99)%Z /\
              y = two_digits h ++ lit ":" ++ two_digits m.
Proof.
  destruct (hhmm_text_dec (Py.strip t)) as [Hf | Hf].
  - pose proof Hf as (hh & mm & Hs & Hh & Hm & Dh & Dm).
    destruct (to_24h_hhmm_fast t Hs Hh Hm Dh Dm)
      as (h & m & _ & _ & Bh & Bm & E).
    rewrite E. intros [= <-]. eauto.
  - rewrite (to_24h_hhmm_slow t Hf).
    destruct (datetime.strptime_I_M_p (Py.strip t)) as [e|dt] eqn:Es;
      [discriminate|].
    intros [= <-]. apply strptime_range in Es. destruct Es as [Bh Bm].
    exists (datetime.hour dt), (datetime.minute dt).
    unfold datetime.strftime_H_M.
    rewrite !format_02d_two_digits by lia. repeat split; lia.
Qed.


(** * The loop over the days *)

Lemma to_24h_hhmm_error t e : _to_24h_hhmm t = raise e -> is_value_error e.
Proof.
  destruct (hhmm_text_dec (Py.strip t)) as [Hf | Hf].
  - pose proof Hf as (hh & mm & Hs & Hh & Hm & Dh & Dm).
    destruct (to_24h_hhmm_fast t Hs Hh Hm Dh Dm)
      as (h & m & _ & _ & _ & _ & ->).
    discriminate.
  - rewrite (to_24h_hhmm_slow t Hf).
    destruct (datetime.strptime_I_M_p (Py.strip t)); [|discriminate].
    intros [= <-]. eexists; reflexivity.
Qed.

Lemma clean_record_loop_body day r :
  clean_record day = Some r -> loop_body day = ret (Some r).
Proof.
  unfold clean_record, loop_body. cbn [at_path].
  destruct day as [| | | | |l|items]; try discriminate. cbn [member dict_get bind ret].
  destruct (lookup items (lit "date")) as [date|]; [|discriminate].
  destruct (lookup items (lit "time")) as [[| | | | | |t]|]; try discriminate.
  cbn [member dict_get bind ret].
  destruct (lookup t (lit "sahur")) as [[| | | |sahur| |]|]; try discriminate.
  destruct (lookup t (lit "iftar")) as [[| | | |iftar| |]|]; try discriminate.
  destruct (truthy date && truthy (PyStr sahur) && truthy (PyStr iftar));
    [|discriminate].
  cbn [negb call_to_24h_hhmm].
  destruct (_to_24h_hhmm sahur) as [e1|s24]; [discriminate|].
  destruct (_to_24h_hhmm iftar) as [e2|i24]; [discriminate|].
  cbn [bind ret or_none]. intros [= <-]. reflexivity.
Qed.

Lemma well_typed_loop_body day :
  well_typed day -> clean_record day = None -> loop_body day = ret None.
Proof.
  intros (items & -> & Ht). unfold clean_record, loop_body. cbn [at_path].
  cbn [member dict_get bind ret].
  destruct (lookup items (lit "date")) as [date|].
  2:{ intros _. destruct (lookup items (lit "time")) as [[| | | | | |t]|];
        try contradiction; reflexivity. }
  destruct (lookup items (lit "time")) as [[| | | | | |t]|];
    try contradiction; cbn [member dict_get bind ret lookup].
  2:{ intros _. cbn [truthy]. now rewrite !andb_false_r. }
  destruct Ht as [Hs Hi].
  destruct (lookup t (lit "sahur")) as [sahur|]; cbn [text_if_any] in Hs.
  2:{ intros _. cbn [truthy]. now rewrite andb_false_r. }
  destruct (lookup t (lit "iftar")) as [iftar|]; cbn [text_if_any] in Hi.
  2:{ intros _. cbn [truthy]. now rewrite andb_false_r. }
  destruct (truthy date && truthy sahur && truthy iftar) eqn:E;
    [|reflexivity].
  apply andb_true_iff in E. destruct E as [E Ti].
  apply andb_true_iff in E. destruct E as [Td Ts].
  destruct (Hs Ts) as [s ->]. destruct (Hi Ti) as [i ->].
  rewrite Td, Ts, Ti. cbn [andb negb call_to_24h_hhmm].
  destruct (_to_24h_hhmm s) as [e1|s24] eqn:E1.
  - intros _. apply to_24h_hhmm_error in E1. destruct E1 as [msg ->].
    reflexivity.
  - destruct (_to_24h_hhmm i) as [e2|i24] eqn:E2; [|discriminate].
    intros _. apply to_24h_hhmm_error in E2. destruct E2 as [msg ->].
    reflexivity.
Qed.

Lemma loop_ok days : forall rs out,
  Forall2 (fun d r => loop_body d = ret r) days rs ->
  loop days out = ret (out ++ keep rs).
Proof.
  induction days as [|d days IH]; intros rs out H; inversion H; subst.
  - simpl. now rewrite app_nil_r.
  - cbn [loop]. rewrite H2. cbn [bind ret]. rewrite (IH _ _ H4).
    destruct y as [r|]; cbn [keep flat_map]; [|reflexivity].
    now rewrite <- app_assoc.
Qed.

Lemma loop_inv days : forall out res,
  loop days out = ret res ->
  exists rs, Forall2 (fun d r => loop_body d = ret r) days rs /\
             res = out ++ keep rs.
Proof.
  induction days as [|d days IH]; intros out res H.
  - exists []. split; [constructor|]. simpl in *. rewrite app_nil_r.
    now injection H.
  - cbn [loop] in H. destruct (loop_body d) as [e|r] eqn:E; [discriminate|].
    cbn [bind] in H. apply IH in H. destruct H as (rs & Hrs & ->).
    exists (r :: rs). split; [constructor; auto|].
    destruct r as [r|]; cbn [keep flat_map]; [|reflexivity].
    now rewrite <- app_assoc.
Qed.

Lemma getitem_at_path payload :
  (data <- getitem payload (lit "data") ;; getitem data (lit "fasting")) =
  match at_path payload [lit "data"; lit "fasting"] with
  | Some v => ret v
  | None => raise TypeError
  end.
Proof.
  cbn [at_path]. destruct payload as [| | | | | |d]; try reflexivity.
  cbn [getitem member]. destruct (lookup d (lit "data")) as [data|];
    [|reflexivity].
  cbn [bind ret]. destruct data as [| | | | | |d']; try reflexivity.
  cbn [getitem member]. now destruct (lookup d' (lit "fasting")).
Qed.

(** The handler once the key is set and the request has returned a body. *)
Lemma get_ramadan_decoded getenv client (lat lon api_key : str) payload :
  getenv (lit "ISLAMIC_API_KEY") = Some api_key -> api_key <> [] ->
  client ISLAMIC_API_BASE
    [(lit "lat", lat); (lit "lon", lon); (lit "api_key", api_key)]
    = Decoded payload ->
  get_ramadan getenv client lat lon =
  match at_path payload [lit "data"; lit "fasting"] with
  | None => raise unexpected_shape
  | Some fasting_days =>
      days <- iter fasting_days ;;
      out <- loop days [] ;;
      match out with
      | [] => raise no_fasting_days
      | _ => ret out
      end
  end.
Proof.
  intros Hk Hn Hc. unfold get_ramadan. rewrite Hk.
  destruct api_key as [|c k]; [congruence|]. cbv beta iota zeta.
  rewrite Hc. cbn [bind ret].
  rewrite getitem_at_path.
  now destruct (at_path payload [lit "data"; lit "fasting"]).
Qed.

Lemma loop_well_typed days :
  Forall well_typed days -> loop days [] = ret (clean_records days).
Proof.
  intros H. rewrite (@loop_ok days (map clean_record days) []).
  - reflexivity.
  - induction H as [|d days Hd _ IH]; constructor; [|exact IH].
    destruct (clean_record d) as [r|] eqn:E.
    + now apply clean_record_loop_body.
    + now apply well_typed_loop_body.
Qed.


(** * Errors and results of the handler *)

Lemma malformed_clean_record day : malformed day -> clean_record day = None.
Proof.
  unfold malformed, clean_record, fails_to_normalize.
  destruct (at_path day [lit "date"]) as [date|]; [|reflexivity].
  destruct (at_path day [lit "time"; lit "sahur"]) as [sahur|];
    [|now destruct date].
  destruct (at_path day [lit "time"; lit "iftar"]) as [iftar|];
    [|now destruct sahur].
  cbn [absent_or_empty].
  destruct sahur as [| | | |s| |]; try reflexivity.
  destruct iftar as [| | | |i| |]; try reflexivity.
  intros [H | [H | [H | [H | H]]]].
  - now rewrite H.
  - rewrite H. now rewrite andb_false_r.
  - rewrite H. now rewrite andb_false_r.
  - destruct H as (s' & e & [= <-] & ->). now destruct (_ && _).
  - destruct H as (i' & e & [= <-] & ->).
    destruct (_ && _); [|reflexivity]. now destruct (_to_24h_hhmm s).
Qed.

Lemma loop_body_some day r :
  loop_body day = ret (Some r) -> clean_record day = Some r.
Proof.
  unfold clean_record, loop_body. cbn [at_path].
  destruct day as [| | | | |l|items]; try discriminate.
  cbn [member dict_get bind ret].
  destruct (lookup items (lit "time")) as [[| | | | | |t]|]; try discriminate;
    cbn [member dict_get bind ret lookup].
  - destruct (lookup items (lit "date")) as [date|]; cbn [or_none].
    + destruct (lookup t (lit "sahur")) as [sahur|];
        [|cbn [truthy]; rewrite andb_false_r; discriminate].
      destruct (lookup t (lit "iftar")) as [iftar|];
        [|cbn [truthy]; rewrite andb_false_r; discriminate].
      destruct (truthy date && truthy sahur && truthy iftar) eqn:E;
        [|discriminate]. cbn [negb].
      destruct sahur as [| | | |s| |]; try discriminate.
      destruct iftar as [| | | |i| |]; cbn [call_to_24h_hhmm];
        try (destruct (_to_24h_hhmm s) as [[]|]; discriminate).
      rewrite E.
      destruct (_to_24h_hhmm s) as [[]|s24]; try discriminate.
      destruct (_to_24h_hhmm i) as [[]|i24]; try discriminate.
      cbn [bind ret]. intros [= <-]. reflexivity.
    + discriminate.
  - destruct (lookup items (lit "date")); cbn [truthy];
      rewrite ?andb_false_r; discriminate.
Qed.

Lemma call_to_24h_hhmm_error v e :
  call_to_24h_hhmm v = raise e -> e = AttributeError \/ is_value_error e.
Proof.
  destruct v as [| | | |s| |]; cbn [call_to_24h_hhmm];
    try (intros [= <-]; now left).
  intros H. right. eapply to_24h_hhmm_error; eauto.
Qed.

Lemma dict_get_error v key default e :
  dict_get v key default = raise e -> e = AttributeError.
Proof. destruct v; cbn [dict_get]; intros [= <-]; reflexivity. Qed.

Lemma loop_body_error day e : loop_body day = raise e -> e = AttributeError.
Proof.
  unfold loop_body.
  destruct (dict_get day (lit "date") PyNone) as [e1|date] eqn:E1;
    cbn [bind]; [intros [= <-]; eapply dict_get_error; eauto|].
  destruct (dict_get day (lit "time") (PyDict [])) as [e2|time_obj] eqn:E2;
    cbn [bind]; [intros [= <-]; eapply dict_get_error; eauto|].
  destruct (dict_get time_obj (lit "sahur") PyNone) as [e3|sahur] eqn:E3;
    cbn [bind]; [intros [= <-]; eapply dict_get_error; eauto|].
  destruct (dict_get time_obj (lit "iftar") PyNone) as [e4|iftar] eqn:E4;
    cbn [bind]; [intros [= <-]; eapply dict_get_error; eauto|].
  destruct (negb _); [discriminate|].
  destruct (call_to_24h_hhmm sahur) as [e5|s24] eqn:E5; cbn [bind].
  - apply call_to_24h_hhmm_error in E5.
    destruct E5 as [-> | [msg ->]]; [|discriminate]. now intros [= <-].
  - destruct (call_to_24h_hhmm iftar) as [e6|i24] eqn:E6; cbn [bind ret].
    + apply call_to_24h_hhmm_error in E6.
      destruct E6 as [-> | [msg ->]]; [|discriminate]. now intros [= <-].
    + destruct (dict_get day (lit "hijri_readable") PyNone) as [e7|h] eqn:E7;
        cbn [bind]; [intros [= <-]; eapply dict_get_error; eauto|].
      destruct (dict_get day (lit "day") PyNone) as [e8|d] eqn:E8;
        cbn [bind]; [intros [= <-]; eapply dict_get_error; eauto|].
      discriminate.
Qed.

Lemma loop_error days : forall out e,
  loop days out = raise e -> e = AttributeError.
Proof.
  induction days as [|d days IH]; intros out e; cbn [loop]; [discriminate|].
  destruct (loop_body d) as [e1|r] eqn:E; cbn [bind].
  - intros [= <-]. eapply loop_body_error; eauto.
  - apply IH.
Qed.

Lemma iter_error v e : iter v = raise e -> e = TypeError.
Proof. destruct v; cbn [iter]; intros [= <-] || discriminate; reflexivity. Qed.

Lemma upstream_status_not_shape code body :
  upstream_status code body <> unexpected_shape.
Proof.
  intros H. apply (f_equal (detail_char 1)) in H. vm_compute in H.
  discriminate.
Qed.

Lemma upstream_failed_not_shape message :
  upstream_failed message <> unexpected_shape.
Proof.
  intros H. apply (f_equal (detail_char 0)) in H. vm_compute in H.
  discriminate.
Qed.

Lemma upstream_status_not_empty code body :
  upstream_status code body <> no_fasting_days.
Proof.
  intros H. apply (f_equal (detail_char 0)) in H. vm_compute in H.
  discriminate.
Qed.

Lemma upstream_failed_not_empty message :
  upstream_failed message <> no_fasting_days.
Proof.
  intros H. apply (f_equal (detail_char 0)) in H. vm_compute in H.
  discriminate.
Qed.

(** What a successful call went through. *)
Lemma get_ramadan_ret getenv client (lat lon : str) out :
  get_ramadan getenv client lat lon = ret out ->
  exists api_key payload fasting days,
    getenv (lit "ISLAMIC_API_KEY") = Some api_key /\ api_key <> [] /\
    client ISLAMIC_API_BASE
      [(lit "lat", lat); (lit "lon", lon); (lit "api_key", api_key)]
      = Decoded payload /\
    at_path payload [lit "data"; lit "fasting"] = Some fasting /\
    iter fasting = ret days /\
    loop days [] = ret out /\ out <> [].
Proof.
  unfold get_ramadan.
  destruct (getenv (lit "ISLAMIC_API_KEY")) as [[|c k]|] eqn:Hk;
    try discriminate.
  destruct (client _ _) as [payload| |] eqn:Hc; try discriminate.
  cbn [bind ret]. rewrite getitem_at_path.
  destruct (at_path payload _) as [fasting|] eqn:Hp; [|discriminate].
  cbn [bind ret].
  destruct (iter fasting) as [e|days] eqn:Hi; [discriminate|]. cbn [bind].
  destruct (loop days []) as [e|res] eqn:Hl; [discriminate|]. cbn [bind].
  destruct res as [|r res]; [discriminate|]. intros [= <-].
  exists (c :: k), payload, fasting, days. repeat split; auto; discriminate.
Qed.

Lemma well_typed_not_malformed day :
  well_typed day -> clean_record day = None -> malformed day.
Proof.
  intros (items & -> & Ht). unfold clean_record, malformed. cbn [at_path member].
  destruct (lookup items (lit "date")) as [date|]; [|intros _; now left].
  destruct (lookup items (lit "time")) as [[| | | | | |t]|];
    try contradiction; cbn [member]; [|intros _; right; now left].
  destruct Ht as [Hs Hi].
  destruct (lookup t (lit "sahur")) as [sahur|]; [|intros _; right; now left].
  destruct (lookup t (lit "iftar")) as [iftar|];
    [|intros _; right; right; now left].
  cbn [text_if_any absent_or_empty] in *.
  destruct (truthy date) eqn:Td; [|intros _; now left].
  destruct (truthy sahur) eqn:Ts; [|intros _; right; now left].
  destruct (truthy iftar) eqn:Ti; [|intros _; right; right; now left].
  destruct (Hs eq_refl) as [s ->]. destruct (Hi eq_refl) as [i ->].
  rewrite Ts, Ti. cbn [andb].
  destruct (_to_24h_hhmm s) as [e1|s24] eqn:E1.
  - intros _. right; right; right; left. exists s, e1. auto.
  - destruct (_to_24h_hhmm i) as [e2|i24] eqn:E2; [|discriminate].
    intros _. right; right; right; right. exists i, e2. auto.
Qed.

Lemma keep_map_Some recs : keep (map Some recs) = recs.
Proof.
  induction recs as [|r recs IH]; [reflexivity|].
  cbn [map keep flat_map app]. f_equal. exact IH.
Qed.

(** * The number a text of digits denotes *)

Lemma digit_value_ascii c :
  (48 <= c <= 57)%N -> digit_value c = (Z.of_N c - 48)%Z.
Proof.
  intros Hc. unfold digit_value, Py.decimal_zeros.
  rewrite find_head; [reflexivity|].
  apply andb_true_iff. rewrite N.leb_le, N.ltb_lt. lia.
Qed.

Lemma decimal_digit_value c :
  decimal_digit c -> Py.decimal c = Some (digit_value c).
Proof.
  unfold decimal_digit, Py.isdecimal, Py.decimal, digit_value.
  destruct (find _ _) as [z|] eqn:E; [|discriminate].
  intros _. f_equal. apply find_some in E. destruct E as [_ E].
  apply andb_true_iff in E. destruct E as [E _]. apply N.leb_le in E. lia.
Qed.

Lemma int_digits_number_from s : forall acc,
  Forall decimal_digit s -> Py.int_digits acc s = Some (number_from acc s).
Proof.
  induction s as [|c s IH]; intros acc H; [reflexivity|].
  inversion H as [|? ? Hc Hs]; subst. cbn [Py.int_digits number_from].
  rewrite (decimal_digit_value Hc). now apply IH.
Qed.

Lemma int_number_of s :
  Forall decimal_digit s -> s <> [] -> Py.int s = Some (number_of s).
Proof.
  intros H Hn. unfold Py.int, number_of.
  destruct s; [congruence|]. now apply int_digits_number_from.
Qed.

Lemma to_24h_hhmm_fast_number t hh mm :
  Py.strip t = hh ++ lit ":" ++ mm ->
  (List.length hh = 1 \/ List.length hh = 2)%nat -> List.length mm = 2%nat ->
  Forall decimal_digit hh -> Forall decimal_digit mm ->
  (0 <= number_of hh <= 99)%Z /\ (0 <= number_of mm <= 99)%Z /\
  _to_24h_hhmm t =
  ret (two_digits (number_of hh) ++ lit ":" ++ two_digits (number_of mm)).
Proof.
  intros Hs Hh Hm Dh Dm.
  destruct (to_24h_hhmm_fast t Hs Hh Hm Dh Dm)
    as (h & m & Ih & Im & Bh & Bm & E).
  assert (Nh : hh <> []) by (destruct hh; [simpl in Hh; lia | discriminate]).
  assert (Nm : mm <> []) by (destruct mm; [discriminate | discriminate]).
  rewrite (int_number_of Dh Nh) in Ih. injection Ih as <-.
  rewrite (int_number_of Dm Nm) in Im. injection Im as <-.
  auto.
Qed.

(** * The properties of the time normaliser *)

(** C1: every text [H:MM AM] or [H:MM PM], with an hour from 1 to 12
    written in one or two digits and a minute from 00 to 59 in two digits,
    is normalised without error to the zero-padded 24-hour text [HH:MM]
    of the same time: 12 AM becomes hour 00, 12 PM stays 12, and the
    other PM hours gain 12 (1 PM is 13). *)
Theorem to_24h_hhmm_clock12 (leading_zero pm : bool) (h m : Z) :
  (1 <= h <= 12)%Z -> (0 <= m <= 59)%Z ->
  _to_24h_hhmm (clock12 leading_zero h m pm) =
  ret (two_digits (hour24 h pm) ++ lit ":" ++ two_digits m).
Proof.
  intros Hh Hm. apply returns_eq.
  pose proof clock12_check_all as H.
  rewrite forallb_forall in H.
  specialize (H leading_zero ltac:(destruct leading_zero; simpl; auto)).
  rewrite forallb_forall in H.
  specialize (H pm ltac:(destruct pm; simpl; auto)).
  rewrite forallb_forall in H.
  specialize (H h (@zrange_In 12 1 h ltac:(lia))).
  rewrite forallb_forall in H.
  exact (H m (@zrange_In 60 0 m ltac:(lia))).
Qed.

Lemma to_24h_hhmm_clock12_witness :
  (1 <= 1 <= 12)%Z /\ (0 <= 0 <= 59)%Z /\
  _to_24h_hhmm (lit "1:00 PM") = ret (lit "13:00").
Proof.
  split; [lia|]. split; [lia|].
  apply (@to_24h_hhmm_clock12 false true 1 0); lia.
Defined.

Example to_24h_hhmm_midnight :
  _to_24h_hhmm (lit "12:00 AM") = ret (lit "00:00").
Proof. vm_compute. reflexivity. Qed.

Example to_24h_hhmm_noon :
  _to_24h_hhmm (lit "12:30 PM") = ret (lit "12:30").
Proof. vm_compute. reflexivity. Qed.

(** C5, as the code has it: the normaliser raises its [ValueError]
    exactly when the input, stripped of surrounding white space, is neither
    of the form [\d{1,2}:\d{2}] nor a 12-hour text as [strptime] reads
    ["%I:%M %p"] (hour 1 to 12 with an optional leading zero, colon, a
    minute of one digit or of a digit 0 to 5 and a digit, one or more
    white-space characters, AM or PM in any letter case); on every other
    input it returns a text. *)
Theorem to_24h_hhmm_fails_iff t :
  (_to_24h_hhmm t = raise (unrecognized t) <->
     ~ hhmm_text (Py.strip t) /\ ~ clock12_text (Py.strip t)) /\
  ((exists y, _to_24h_hhmm t = ret y) <->
     hhmm_text (Py.strip t) \/ clock12_text (Py.strip t)).
Proof.
  destruct (hhmm_text_dec (Py.strip t)) as [Hf | Hf].
  - pose proof Hf as (hh & mm & Hs & Hh & Hm & Dh & Dm).
    destruct (to_24h_hhmm_fast t Hs Hh Hm Dh Dm) as (h & m & _ & _ & _ & _ & E).
    rewrite E. split; split.
    + discriminate.
    + tauto.
    + auto.
    + eauto.
  - rewrite (to_24h_hhmm_slow t Hf).
    destruct (datetime.strptime_I_M_p (Py.strip t)) as [e|dt] eqn:Es.
    + assert (Hc : ~ clock12_text (Py.strip t)).
      { intros Hc. apply strptime_clock12 in Hc. destruct Hc as [dt Hc].
        rewrite Es in Hc. discriminate. }
      split; split; try tauto.
      intros [y Hy]. discriminate.
    + pose proof (strptime_ok_clock12 _ Es) as Hc.
      split; split; try tauto; try discriminate. eauto.
Qed.

(** C5 as stated fails: a lower-case meridiem is of neither pattern, the
    12-hour one read with upper-case AM or PM only, and still the
    normaliser returns a time. *)
Lemma lowercase_meridiem_is_accepted :
  strictly_recognized (lit "5:42 pm") = false /\
  _to_24h_hhmm (lit "5:42 pm") = ret (lit "17:42").
Proof. split; vm_compute; reflexivity. Qed.

(** C6: on every text of the form [\d{1,2}:\d{2}] the normaliser returns
    the two numbers its digits denote, each in two digits, whatever their
    range: no bound on the hour or the minute is checked on this path. *)
Theorem to_24h_hhmm_passthrough s hh mm :
  s = hh ++ lit ":" ++ mm ->
  (List.length hh = 1 \/ List.length hh = 2)%nat -> List.length mm = 2%nat ->
  Forall decimal_digit hh -> Forall decimal_digit mm ->
  _to_24h_hhmm s =
  ret (two_digits (number_of hh) ++ lit ":" ++ two_digits (number_of mm)).
Proof.
  intros Hs Hh Hm Dh Dm.
  assert (Ht : hhmm_text s) by (exists hh, mm; auto).
  apply hhmm_text_strip in Ht. rewrite <- Ht in Hs.
  apply (to_24h_hhmm_fast_number s Hs Hh Hm Dh Dm).
Qed.

Lemma to_24h_hhmm_passthrough_witness :
  number_of (lit "25") = 25%Z /\ number_of (lit "99") = 99%Z /\
  _to_24h_hhmm (lit "25:99") = ret (lit "25:99").
Proof.
  split; [reflexivity|]. split; [reflexivity|].
  apply (@to_24h_hhmm_passthrough (lit "25:99") (lit "25") (lit "99")).
  - reflexivity.
  - right. reflexivity.
  - reflexivity.
  - repeat constructor.
  - repeat constructor.
Defined.

Example to_24h_hhmm_no_range_check :
  _to_24h_hhmm (lit "25:99") = ret (lit "25:99").
Proof. vm_compute. reflexivity. Qed.

(** C9: the normaliser is idempotent on its results: a text it returns is
    of the form [\d{1,2}:\d{2}] and is returned unchanged when normalised
    again. *)
Theorem to_24h_hhmm_idempotent t y :
  _to_24h_hhmm t = ret y -> hhmm_text y /\ _to_24h_hhmm y = ret y.
Proof.
  intros H. apply to_24h_hhmm_output in H.
  destruct H as (h & m & Bh & Bm & ->). split.
  - destruct (two_digits_decimal Bh) as [Dh _].
    destruct (two_digits_decimal Bm) as [Dm _].
    exists (two_digits h), (two_digits m). repeat split; auto.
  - now apply to_24h_hhmm_two_digits.
Qed.

Lemma to_24h_hhmm_idempotent_witness :
  _to_24h_hhmm (lit "5:42 AM") = ret (lit "05:42") /\
  hhmm_text (lit "05:42") /\
  _to_24h_hhmm (lit "05:42") = ret (lit "05:42").
Proof.
  split; [vm_compute; reflexivity|].
  apply (@to_24h_hhmm_idempotent (lit "5:42 AM")).
  vm_compute. reflexivity.
Defined.

(** * The properties of the handler *)

(** C2 fails on the code: a time that already has the form
    [\d{1,2}:\d{2}] is re-rendered without any check of its range, so a
    successful response can carry a [sahur] that is no time of day. *)
Lemma out_of_range_time_is_emitted :
  get_ramadan sample_env (answer (body_of (PyList [out_of_range_day])))
    sample_lat sample_lon = ret [out_of_range_clean] /\
  lookup out_of_range_clean (lit "sahur") = Some (PyStr (lit "25:99")) /\
  time_of_day (lit "25:99") = false.
Proof. repeat split; vm_compute; reflexivity. Qed.

(** C3, as the code has it: when every day of the upstream list is an
    object whose [time], if present, is an object and whose two times, if
    not empty, are strings, the days that miss [date], [time.sahur] or
    [time.iftar], or hold an empty one, or a time that does not
    normalise, are exactly the days without a clean record, they are
    dropped without error, and the clean records of the others are
    returned in upstream order - unless none is left, which is the
    empty-result error. *)
Theorem get_ramadan_drops_malformed
    getenv client (lat lon api_key : str) payload days :
  getenv (lit "ISLAMIC_API_KEY") = Some api_key -> api_key <> [] ->
  client ISLAMIC_API_BASE
    [(lit "lat", lat); (lit "lon", lon); (lit "api_key", api_key)]
    = Decoded payload ->
  at_path payload [lit "data"; lit "fasting"] = Some (PyList days) ->
  Forall well_typed days ->
  (forall day, In day days -> (clean_record day = None <-> malformed day)) /\
  get_ramadan getenv client lat lon =
    match clean_records days with
    | [] => raise no_fasting_days
    | _ :: _ => ret (clean_records days)
    end.
Proof.
  intros Hk Hn Hc Hp Ht. split.
  - intros day Hin. split.
    + apply well_typed_not_malformed. rewrite Forall_forall in Ht. auto.
    + apply malformed_clean_record.
  - rewrite (@get_ramadan_decoded getenv client lat lon _ _ Hk Hn Hc), Hp.
    cbn [iter bind ret]. rewrite (loop_well_typed Ht). cbn [bind].
    now destruct (clean_records days).
Qed.

Lemma get_ramadan_drops_malformed_witness :
  get_ramadan sample_env
    (answer (body_of (PyList [no_sahur_day; sample_day])))
    sample_lat sample_lon = ret [sample_clean].
Proof.
  refine (proj2 (@get_ramadan_drops_malformed sample_env
            (answer (body_of (PyList [no_sahur_day; sample_day])))
            sample_lat sample_lon (lit "secret")
            (body_of (PyList [no_sahur_day; sample_day]))
            [no_sahur_day; sample_day] eq_refl _ eq_refl eq_refl _)).
  - discriminate.
  - repeat constructor.
    + eexists. split; [reflexivity|]. cbn. split; [exact I|].
      intros _. eexists. reflexivity.
    + eexists. split; [reflexivity|]. cbn.
      split; intros _; eexists; reflexivity.
Defined.

(** C3 as stated fails twice over.  A day without [time.sahur] that is
    the only day of the list is dropped, and the handler then raises the
    empty-result error.  And a day whose [time] is [null] misses
    [time.sahur] too, but the handler raises instead of dropping it and
    returning the well-formed day that follows. *)
Lemma dropping_can_raise :
  at_path no_sahur_day [lit "time"; lit "sahur"] = None /\
  get_ramadan sample_env (answer (body_of (PyList [no_sahur_day])))
    sample_lat sample_lon = raise no_fasting_days /\
  at_path null_time_day [lit "time"; lit "sahur"] = None /\
  clean_record sample_day = Some sample_clean /\
  get_ramadan sample_env
    (answer (body_of (PyList [null_time_day; sample_day])))
    sample_lat sample_lon = raise AttributeError.
Proof. repeat split; vm_compute; reflexivity. Qed.

(** C4, as the code has it: for a list of N >= 1 well-formed days the
    handler returns exactly their N clean records, in upstream order. *)
Theorem get_ramadan_well_formed
    getenv client (lat lon api_key : str) payload days recs :
  getenv (lit "ISLAMIC_API_KEY") = Some api_key -> api_key <> [] ->
  client ISLAMIC_API_BASE
    [(lit "lat", lat); (lit "lon", lon); (lit "api_key", api_key)]
    = Decoded payload ->
  at_path payload [lit "data"; lit "fasting"] = Some (PyList days) ->
  days <> [] ->
  Forall2 (fun day rec => clean_record day = Some rec) days recs ->
  get_ramadan getenv client lat lon = ret recs /\
  List.length recs = List.length days.
Proof.
  intros Hk Hn Hc Hp Hd Hr. split.
  - rewrite (@get_ramadan_decoded getenv client lat lon _ _ Hk Hn Hc), Hp.
    cbn [iter bind ret].
    rewrite (@loop_ok days (map Some recs) []).
    + cbn [app bind]. rewrite keep_map_Some.
      destruct Hr; [congruence | reflexivity].
    + clear Hd Hp. induction Hr; constructor; auto.
      now apply clean_record_loop_body.
  - symmetry. eapply Forall2_length; eauto.
Qed.

Lemma get_ramadan_well_formed_witness :
  get_ramadan sample_env (answer (body_of (PyList [sample_day])))
    sample_lat sample_lon = ret [sample_clean] /\
  List.length [sample_clean] = List.length [sample_day].
Proof.
  apply (@get_ramadan_well_formed sample_env
           (answer (body_of (PyList [sample_day])))
           sample_lat sample_lon (lit "secret")
           (body_of (PyList [sample_day])) [sample_day] [sample_clean]).
  - reflexivity.
  - discriminate.
  - reflexivity.
  - reflexivity.
  - discriminate.
  - repeat constructor.
Defined.

(** C4 as stated fails for N = 0: every day of the empty list is
    well-formed, and the handler raises the empty-result error instead of
    returning no record. *)
Lemma no_days_is_an_error :
  Forall2 (fun day rec => clean_record day = Some rec) [] [] /\
  get_ramadan sample_env (answer (body_of (PyList [])))
    sample_lat sample_lon = raise no_fasting_days.
Proof. split; [constructor | vm_compute; reflexivity]. Qed.

(** C7: whenever no record is left - the upstream list is empty or every
    day was dropped - the handler raises its empty-result error, an HTTP
    502 whose detail differs from the details of the upstream errors; and
    it never returns the empty list. *)
Theorem empty_result_is_error getenv client (lat lon : str) :
  (forall api_key payload fasting days,
      getenv (lit "ISLAMIC_API_KEY") = Some api_key -> api_key <> [] ->
      client ISLAMIC_API_BASE
        [(lit "lat", lat); (lit "lon", lon); (lit "api_key", api_key)]
        = Decoded payload ->
      at_path payload [lit "data"; lit "fasting"] = Some fasting ->
      iter fasting = ret days ->
      days = [] \/ Forall (fun day => loop_body day = ret None) days ->
      get_ramadan getenv client lat lon = raise no_fasting_days) /\
  get_ramadan getenv client lat lon <> ret [] /\
  no_fasting_days =
    HTTPException 502 (lit "No fasting days returned from IslamicAPI.") /\
  (forall status_code body, upstream_status status_code body <> no_fasting_days) /\
  (forall message, upstream_failed message <> no_fasting_days).
Proof.
  split; [|split; [|split; [reflexivity | split]]].
  - intros api_key payload fasting days Hk Hn Hc Hp Hi Hd.
    rewrite (@get_ramadan_decoded getenv client lat lon _ _ Hk Hn Hc), Hp, Hi.
    cbn [bind ret].
    assert (Hall : Forall (fun day => loop_body day = ret None) days).
    { destruct Hd as [-> | Hd]; [constructor | exact Hd]. }
    rewrite (@loop_ok days (map (fun _ => None) days) []).
    + cbn [app bind]. replace (keep _) with (@nil dict); [reflexivity|].
      clear. induction days; simpl; auto.
    + clear - Hall. induction Hall; constructor; auto.
  - intros H. apply get_ramadan_ret in H.
    destruct H as (? & ? & ? & ? & _ & _ & _ & _ & _ & _ & Hne). congruence.
  - apply upstream_status_not_empty.
  - apply upstream_failed_not_empty.
Qed.

Lemma empty_result_is_error_witness :
  get_ramadan sample_env (answer (body_of (PyList [no_sahur_day])))
    sample_lat sample_lon = raise no_fasting_days.
Proof.
  refine (proj1 (@empty_result_is_error sample_env
            (answer (body_of (PyList [no_sahur_day])))
            sample_lat sample_lon)
          (lit "secret") (body_of (PyList [no_sahur_day]))
          (PyList [no_sahur_day]) [no_sahur_day]
          eq_refl _ eq_refl eq_refl eq_refl _).
  - discriminate.
  - right. repeat constructor.
Defined.

(** C8, as the code has it: the shape error, an HTTP 502 with a fixed
    detail, is raised exactly when the key is set, the request returns a
    body, and that body has nothing at the path [data.fasting]. *)
Theorem unexpected_shape_iff getenv client (lat lon : str) :
  (get_ramadan getenv client lat lon = raise unexpected_shape <->
   exists api_key payload,
     getenv (lit "ISLAMIC_API_KEY") = Some api_key /\ api_key <> [] /\
     client ISLAMIC_API_BASE
       [(lit "lat", lat); (lit "lon", lon); (lit "api_key", api_key)]
       = Decoded payload /\
     at_path payload [lit "data"; lit "fasting"] = None) /\
  unexpected_shape =
    HTTPException 502
      (lit "Unexpected IslamicAPI response shape (missing data.fasting).").
Proof.
  split; [|reflexivity]. split.
  - unfold get_ramadan.
    destruct (getenv (lit "ISLAMIC_API_KEY")) as [[|c k]|] eqn:Hk;
      try discriminate.
    destruct (client _ _) as [payload|code j text|message] eqn:Hc;
      cbn [bind ret raise].
    + rewrite getitem_at_path.
      destruct (at_path payload _) as [fasting|] eqn:Hp.
      * cbn [bind ret].
        destruct (iter fasting) as [e|days] eqn:Hi; cbn [bind].
        { apply iter_error in Hi. subst e. discriminate. }
        destruct (loop days []) as [e|res] eqn:Hl; cbn [bind].
        { apply loop_error in Hl. subst e. discriminate. }
        destruct res; [|discriminate].
        intros H.
        apply (f_equal (fun r : result (list dict) =>
                 match r with inl e => detail_char 0 e | inr _ => 0%N end)) in H.
        vm_compute in H. discriminate.
      * intros _. exists (c :: k), payload. repeat split; auto. discriminate.
    + intros H. exfalso.
      apply (@upstream_status_not_shape code
               (match j with Some t => t | None => text end)).
      unfold raise in H. congruence.
    + intros H. exfalso.
      apply (@upstream_failed_not_shape message).
      unfold raise in H. congruence.
  - intros (api_key & payload & Hk & Hn & Hc & Hp).
    now rewrite (@get_ramadan_decoded getenv client lat lon _ _ Hk Hn Hc), Hp.
Qed.

(** C8 as stated fails: a body whose [data.fasting] is [null] holds no
    list there, and the handler raises a [TypeError], not the shape
    error. *)
Lemma null_fasting_is_not_shape_error :
  at_path (body_of PyNone) [lit "data"; lit "fasting"] = Some PyNone /\
  get_ramadan sample_env (answer (body_of PyNone)) sample_lat sample_lon
    = raise TypeError.
Proof. split; vm_compute; reflexivity. Qed.

(** C10: every record of a successful response has exactly the keys
    [date], [sahur], [iftar], [hijri_readable] and [day], in this order; it
    is the clean record of a day of the upstream list, and where that day
    has no [hijri_readable] or no [day] the record holds [None] under the
    key. *)
Theorem records_have_five_keys getenv client (lat lon : str) out :
  get_ramadan getenv client lat lon = ret out ->
  exists api_key payload fasting days,
    getenv (lit "ISLAMIC_API_KEY") = Some api_key /\
    client ISLAMIC_API_BASE
      [(lit "lat", lat); (lit "lon", lon); (lit "api_key", api_key)]
      = Decoded payload /\
    at_path payload [lit "data"; lit "fasting"] = Some fasting /\
    iter fasting = ret days /\
    Forall (fun rec =>
      map fst rec = record_keys /\
      exists day,
        In day days /\ clean_record day = Some rec /\
        (member day (lit "hijri_readable") = None ->
           lookup rec (lit "hijri_readable") = Some PyNone) /\
        (member day (lit "day") = None ->
           lookup rec (lit "day") = Some PyNone)) out.
Proof.
  intros H. apply get_ramadan_ret in H.
  destruct H as (api_key & payload & fasting & days & Hk & _ & Hc & Hp & Hi & Hl & _).
  exists api_key, payload, fasting, days. repeat split; auto.
  apply loop_inv in Hl. destruct Hl as (rs & Hrs & ->). cbn [app].
  clear Hi Hp Hc Hk. induction Hrs as [|day r days rs Hb _ IH]; [constructor|].
  assert (IH' : Forall (fun rec =>
      map fst rec = record_keys /\
      exists d,
        In d (day :: days) /\ clean_record d = Some rec /\
        (member d (lit "hijri_readable") = None ->
           lookup rec (lit "hijri_readable") = Some PyNone) /\
        (member d (lit "day") = None ->
           lookup rec (lit "day") = Some PyNone)) (keep rs)).
  { eapply Forall_impl; [|exact IH].
    intros rec (Hkeys & d & Hin & Hrest). split; [exact Hkeys|].
    exists d. split; [now right | exact Hrest]. }
  destruct r as [rec|]; cbn [keep flat_map app]; [|exact IH'].
  constructor; [|exact IH'].
  apply loop_body_some in Hb. pose proof Hb as Hb'.
  unfold clean_record in Hb.
  destruct (at_path day [lit "date"]) as [date|]; [|discriminate].
  destruct (at_path day [lit "time"; lit "sahur"]) as [[| | | |s| |]|];
    try discriminate.
  destruct (at_path day [lit "time"; lit "iftar"]) as [[| | | |i| |]|];
    try discriminate.
  destruct (_ && _); [|discriminate].
  destruct (_to_24h_hhmm s); [discriminate|].
  destruct (_to_24h_hhmm i); [discriminate|].
  injection Hb as <-. split; [reflexivity|].
  exists day. split; [now left|]. split; [exact Hb'|].
  split; intros ->; reflexivity.
Qed.

Lemma records_have_five_keys_witness :
  get_ramadan sample_env (answer (body_of (PyList [out_of_range_day])))
    sample_lat sample_lon = ret [out_of_range_clean] /\
  Forall (fun rec =>
    map fst rec = record_keys /\
    lookup rec (lit "hijri_readable") = Some PyNone /\
    lookup rec (lit "day") = Some PyNone) [out_of_range_clean].
Proof.
  split; [vm_compute; reflexivity|].
  destruct (@records_have_five_keys sample_env
              (answer (body_of (PyList [out_of_range_day])))
              sample_lat sample_lon [out_of_range_clean])
    as (k & p & f & d & _ & Hc & Hp & Hi & H).
  - vm_compute. reflexivity.
  - injection Hc as <-. injection Hp as <-. injection Hi as <-.
    eapply Forall_impl; [|exact H].
    intros rec (Hk & day & [<- | []] & _ & Hh & Hd).
    split; [exact Hk|]. split; [apply Hh | apply Hd]; reflexivity.
Defined.

(** * Further facts about the normaliser *)

Lemma lstrip_idem s : Py.lstrip (Py.lstrip s) = Py.lstrip s.
Proof.
  induction s as [|c s IH]; [reflexivity|].
  simpl. destruct (Py.isspace c) eqn:E; [exact IH|].
  simpl. now rewrite E.
Qed.

Lemma lstrip_snoc a c :
  Py.isspace c = false -> exists w, Py.lstrip (a ++ [c]) = w ++ [c].
Proof.
  intros Hc. induction a as [|x a IH]; simpl.
  - rewrite Hc. now exists [].
  - destruct (Py.isspace x); [exact IH|]. now exists (x :: a).
Qed.

Lemma lstrip_rstrip s :
  Py.lstrip (Py.rstrip (Py.lstrip s)) = Py.rstrip (Py.lstrip s).
Proof.
  destruct (Py.lstrip s) as [|c u] eqn:E; [reflexivity|].
  assert (Hc : Py.isspace c = false).
  { clear - E. induction s as [|x s IH]; [discriminate|].
    simpl in E. destruct (Py.isspace x) eqn:Ex; [auto|].
    injection E as <- _. exact Ex. }
  unfold Py.rstrip. simpl rev.
  destruct (@lstrip_snoc (rev u) c Hc) as [w Hw]. rewrite Hw.
  rewrite rev_app_distr. simpl. now rewrite Hc.
Qed.

Lemma strip_idem s : Py.strip (Py.strip s) = Py.strip s.
Proof.
  unfold Py.strip. rewrite lstrip_rstrip.
  unfold Py.rstrip. now rewrite rev_involutive, lstrip_idem.
Qed.

Lemma to_24h_hhmm_raises t e : _to_24h_hhmm t = raise e -> e = unrecognized t.
Proof.
  destruct (hhmm_text_dec (Py.strip t)) as [Hf | Hf].
  - pose proof Hf as (hh & mm & Hs & Hh & Hm & Dh & Dm).
    destruct (to_24h_hhmm_fast t Hs Hh Hm Dh Dm)
      as (h & m & _ & _ & _ & _ & ->).
    discriminate.
  - rewrite (to_24h_hhmm_slow t Hf).
    destruct (datetime.strptime_I_M_p (Py.strip t)); [|discriminate].
    now intros [= <-].
Qed.

Lemma to_24h_hhmm_via_strip t :
  _to_24h_hhmm t =
  match _to_24h_hhmm (Py.strip t) with
  | inr y => ret y
  | inl _ => raise (unrecognized t)
  end.
Proof.
  destruct (hhmm_text_dec (Py.strip t)) as [Hf | Hf].
  - pose proof Hf as (hh & mm & Hs & Hh & Hm & Dh & Dm).
    destruct (to_24h_hhmm_fast t Hs Hh Hm Dh Dm)
      as (h & m & Ih & Im & _ & _ & ->).
    rewrite <- (strip_idem t) in Hs.
    destruct (to_24h_hhmm_fast (Py.strip t) Hs Hh Hm Dh Dm)
      as (h' & m' & Ih' & Im' & _ & _ & ->).
    rewrite Ih in Ih'. injection Ih' as <-. rewrite Im in Im'. injection Im' as <-.
    reflexivity.
  - rewrite (to_24h_hhmm_slow t Hf).
    rewrite (@to_24h_hhmm_slow (Py.strip t)) by now rewrite strip_idem.
    rewrite strip_idem.
    now destruct (datetime.strptime_I_M_p (Py.strip t)).
Qed.

Lemma ret_inj (A : Type) (a b : A) : ret a = ret b -> a = b.
Proof. unfold ret. congruence. Qed.




Lemma time_of_day_check_all :
  forallb (fun h => forallb (time_of_day_check h) (zrange 0 100))
          (zrange 0 100) = true.
Proof. vm_compute. reflexivity. Qed.

Lemma time_of_day_two_digits h m :
  (0 <= h <= 99)%Z -> (0 <= m <= 99)%Z ->
  time_of_day (two_digits h ++ lit ":" ++ two_digits m) =
  ((h <=? 23) && (m <=? 59))%Z.
Proof.
  intros Hh Hm. pose proof time_of_day_check_all as H.
  rewrite forallb_forall in H.
  specialize (H h (@zrange_In 100 0 h ltac:(lia))).
  rewrite forallb_forall in H.
  specialize (H m (@zrange_In 100 0 m ltac:(lia))).
  now apply Bool.eqb_prop in H.
Qed.

Lemma ascii_digits_check_all : forallb ascii_digits_check (zrange 0 100) = true.
Proof. vm_compute. reflexivity. Qed.


Lemma lstrip_blanks l u : blanks l -> Py.lstrip (l ++ u) = Py.lstrip u.
Proof.
  induction 1 as [|c l Hc _ IH]; [reflexivity|].
  simpl. now rewrite Hc.
Qed.

Lemma lstrip_all_blanks r : blanks r -> Py.lstrip r = [].
Proof.
  intros H. rewrite <- (app_nil_r r). now rewrite lstrip_blanks.
Qed.

Lemma rstrip_blanks u r : blanks r -> Py.rstrip (u ++ r) = Py.rstrip u.
Proof.
  intros H. unfold Py.rstrip. rewrite rev_app_distr, lstrip_blanks.
  - reflexivity.
  - unfold blanks in *. rewrite Forall_forall in *. intros c Hc.
    apply H. now apply in_rev.
Qed.

Lemma strip_blanks l s r :
  blanks l -> blanks r -> Py.strip (l ++ s ++ r) = Py.strip s.
Proof.
  intros Hl Hr. unfold Py.strip. rewrite (lstrip_blanks _ Hl).
  induction s as [|c s IH].
  - cbn [app]. now rewrite (lstrip_all_blanks Hr).
  - cbn [app Py.lstrip]. destruct (Py.isspace c); [exact IH|].
    change (c :: s ++ r) with ((c :: s) ++ r). now apply rstrip_blanks.
Qed.

(** * Further properties of the time normaliser *)

(** X1: white space around a text never changes the outcome: with any
    run of white space before and after it, the normaliser returns what it
    returns on the text alone, and it fails exactly when it fails on the
    text alone (the message quoting each input as given). *)
Theorem to_24h_hhmm_ignores_outer_space l s r :
  blanks l -> blanks r ->
  (forall y, _to_24h_hhmm (l ++ s ++ r) = ret y <-> _to_24h_hhmm s = ret y) /\
  (_to_24h_hhmm (l ++ s ++ r) = raise (unrecognized (l ++ s ++ r)) <->
   _to_24h_hhmm s = raise (unrecognized s)).
Proof.
  intros Hl Hr.
  rewrite (to_24h_hhmm_via_strip (l ++ s ++ r)), (to_24h_hhmm_via_strip s).
  rewrite (strip_blanks s Hl Hr).
  destruct (_to_24h_hhmm (Py.strip s)) as [e|y']; split.
  - intros y. split; discriminate.
  - tauto.
  - tauto.
  - split; discriminate.
Qed.

Lemma to_24h_hhmm_ignores_outer_space_witness :
  _to_24h_hhmm ([9; 32] ++ lit "5:42 PM" ++ [160; 10])%N = ret (lit "17:42") /\
  _to_24h_hhmm (lit "5:42 PM") = ret (lit "17:42").
Proof.
  split; [|vm_compute; reflexivity].
  apply (proj1 (@to_24h_hhmm_ignores_outer_space [9; 32]%N (lit "5:42 PM")
                  [160; 10]%N ltac:(repeat constructor)
                  ltac:(repeat constructor))).
  vm_compute. reflexivity.
Defined.



(** X3: a result that does not come from the path of [\d{1,2}:\d{2}] is a
    time of day: its hour is from 00 to 23 and its minute from 00 to 59. *)
Theorem to_24h_hhmm_clock12_in_range t y :
  ~ hhmm_text (Py.strip t) -> _to_24h_hhmm t = ret y ->
  time_of_day y = true.
Proof.
  intros Hn. rewrite (to_24h_hhmm_slow t Hn).
  destruct (datetime.strptime_I_M_p (Py.strip t)) as [e|dt] eqn:E;
    [discriminate|].
  intros H. apply ret_inj in H. subst y.
  apply strptime_range in E. destruct E as [Bh Bm].
  unfold datetime.strftime_H_M. rewrite !format_02d_two_digits by lia.
  rewrite time_of_day_two_digits by lia.
  apply andb_true_iff. rewrite !Z.leb_le. lia.
Qed.

Lemma to_24h_hhmm_clock12_in_range_witness :
  _to_24h_hhmm (lit "5:42 pm") = ret (lit "17:42") /\
  time_of_day (lit "17:42") = true.
Proof.
  split; [vm_compute; reflexivity|].
  apply (@to_24h_hhmm_clock12_in_range (lit "5:42 pm")).
  - intros H. apply hhmm_regex_matches in H. apply H. vm_compute. reflexivity.
  - vm_compute. reflexivity.
Defined.

(** X4: on the path of [\d{1,2}:\d{2}] the normaliser returns the two
    numbers the digits denote, in range or not, and the result is a time of
    day exactly when the hour is at most 23 and the minute at most 59. *)
Theorem to_24h_hhmm_fast_in_range_iff t hh mm :
  Py.strip t = hh ++ lit ":" ++ mm ->
  (List.length hh = 1 \/ List.length hh = 2)%nat -> List.length mm = 2%nat ->
  Forall decimal_digit hh -> Forall decimal_digit mm ->
  _to_24h_hhmm t =
    ret (two_digits (number_of hh) ++ lit ":" ++ two_digits (number_of mm)) /\
  (time_of_day
     (two_digits (number_of hh) ++ lit ":" ++ two_digits (number_of mm)) = true
   <-> (number_of hh <= 23)%Z /\ (number_of mm <= 59)%Z).
Proof.
  intros Hs Hh Hm Dh Dm.
  destruct (to_24h_hhmm_fast_number t Hs Hh Hm Dh Dm) as (Bh & Bm & E).
  split; [exact E|].
  rewrite time_of_day_two_digits by lia.
  rewrite andb_true_iff, !Z.leb_le. tauto.
Qed.

Lemma to_24h_hhmm_fast_in_range_iff_witness :
  _to_24h_hhmm (lit " 25:99 ") = ret (lit "25:99") /\
  (time_of_day (lit "25:99") = true <-> (25 <= 23)%Z /\ (99 <= 59)%Z).
Proof.
  apply (@to_24h_hhmm_fast_in_range_iff (lit " 25:99 ") (lit "25") (lit "99")).
  - reflexivity.
  - right. reflexivity.
  - reflexivity.
  - repeat constructor.
  - repeat constructor.
Defined.

(** X5: every result has exactly five characters: two ASCII digits, a
    colon and two ASCII digits, also when the input held other decimal
    digits or a one-digit hour. *)
Theorem to_24h_hhmm_five_characters t y :
  _to_24h_hhmm t = ret y ->
  exists a b c d,
    y = [a; b; 58%N; c; d] /\
    ascii_digit a /\ ascii_digit b /\ ascii_digit c /\ ascii_digit d.
Proof.
  intros H. apply to_24h_hhmm_output in H.
  destruct H as (h & m & Bh & Bm & ->).
  pose proof ascii_digits_check_all as H. rewrite forallb_forall in H.
  pose proof (H h (@zrange_In 100 0 h ltac:(lia))) as Hh.
  pose proof (H m (@zrange_In 100 0 m ltac:(lia))) as Hm.
  unfold ascii_digits_check, two_digits in Hh, Hm. cbn [forallb] in Hh, Hm.
  rewrite !andb_true_iff, !N.leb_le in Hh, Hm.
  unfold two_digits, ascii_digit. eexists _, _, _, _.
  split; [reflexivity|]. tauto.
Qed.

Lemma to_24h_hhmm_five_characters_witness :
  exists a b c d,
    lit "05:42" = [a; b; 58%N; c; d] /\
    ascii_digit a /\ ascii_digit b /\ ascii_digit c /\ ascii_digit d.
Proof.
  apply (@to_24h_hhmm_five_characters (lit "5:42 AM")).
  vm_compute. reflexivity.
Defined.

(** X6: the only exception the normaliser raises is its own
    [ValueError], and its message quotes the input as given, not
    stripped. *)
Theorem to_24h_hhmm_only_error t e :
  _to_24h_hhmm t = raise e -> e = unrecognized t.
Proof. apply to_24h_hhmm_raises. Qed.

Lemma to_24h_hhmm_only_error_witness :
  ValueError (lit "Unrecognized time format: ' noon '")
  = unrecognized (lit " noon ").
Proof.
  apply (@to_24h_hhmm_only_error (lit " noon ")).
  vm_compute. reflexivity.
Defined.


(** * Further facts about the handler *)

Lemma loop_body_clean_record day r :
  loop_body day = ret r -> clean_record day = r.
Proof.
  intros H. destruct r as [rec|]; [now apply loop_body_some|].
  destruct (clean_record day) as [rec|] eqn:E; [|reflexivity].
  apply clean_record_loop_body in E. rewrite E in H. discriminate.
Qed.

Lemma loop_ret_clean_records days out res :
  loop days out = ret res -> res = out ++ clean_records days.
Proof.
  intros H. apply loop_inv in H. destruct H as (rs & Hrs & ->).
  f_equal. unfold clean_records. f_equal.
  induction Hrs as [|d r days rs Hb _ IH]; [reflexivity|].
  cbn [map]. f_equal; [|exact IH].
  symmetry. now apply loop_body_clean_record.
Qed.

Lemma loop_no_raise days : forall out,
  Forall (fun d => exists r, loop_body d = ret r) days ->
  loop days out = ret (out ++ clean_records days).
Proof.
  intros out H.
  destruct (loop days out) as [e|res] eqn:E.
  - exfalso. revert out E. induction H as [|d days [r Hr] _ IH]; intros out.
    + discriminate.
    + cbn [loop]. rewrite Hr. cbn [bind]. apply IH.
  - apply loop_ret_clean_records in E. now subst.
Qed.

Lemma loop_ret_no_raise days : forall out res,
  loop days out = ret res ->
  Forall (fun d => exists r, loop_body d = ret r) days.
Proof.
  intros out res H. apply loop_inv in H. destruct H as (rs & Hrs & _).
  induction Hrs; constructor; eauto.
Qed.

Lemma loop_raises_iff days : forall out,
  loop days out = raise AttributeError <->
  Exists (fun d => loop_body d = raise AttributeError) days.
Proof.
  induction days as [|d days IH]; intros out; cbn [loop].
  - split; [discriminate | inversion 1].
  - destruct (loop_body d) as [e|r] eqn:E; cbn [bind].
    + assert (e = AttributeError) by (eapply loop_body_error; exact E).
      subst e. split; [|intros _; reflexivity].
      intros _. now left.
    + rewrite IH. split.
      * intros H. now right.
      * inversion 1 as [? ? Hd | ? ? Ht]; subst;
          [rewrite E in Hd; discriminate | assumption].
Qed.

Lemma iter_not_list v days :
  iter v = ret days -> (forall l, v <> PyList l) ->
  Forall (fun d => loop_body d = raise AttributeError) days.
Proof.
  destruct v as [| | | |s|l|d]; cbn [iter]; try discriminate;
    intros H Hn; apply ret_inj in H; subst days.
  - apply Forall_forall. intros x Hx. apply in_map_iff in Hx.
    destruct Hx as (c & <- & _). reflexivity.
  - exfalso. now apply (Hn l).
  - apply Forall_forall. intros x Hx. apply in_map_iff in Hx.
    destruct Hx as (c & <- & _). reflexivity.
Qed.

Lemma get_ramadan_outcome getenv client (lat lon api_key : str) payload
    fasting days :
  getenv (lit "ISLAMIC_API_KEY") = Some api_key -> api_key <> [] ->
  client ISLAMIC_API_BASE
    [(lit "lat", lat); (lit "lon", lon); (lit "api_key", api_key)]
    = Decoded payload ->
  at_path payload [lit "data"; lit "fasting"] = Some fasting ->
  iter fasting = ret days ->
  get_ramadan getenv client lat lon =
  match loop days [] with
  | inl e => raise e
  | inr [] => raise no_fasting_days
  | inr out => ret out
  end.
Proof.
  intros Hk Hn Hc Hp Hi.
  rewrite (@get_ramadan_decoded getenv client lat lon _ _ Hk Hn Hc), Hp, Hi.
  cbn [bind ret]. destruct (loop days []) as [e|[|r out]]; reflexivity.
Qed.

Lemma get_ramadan_raises getenv client (lat lon : str) e :
  get_ramadan getenv client lat lon = raise e ->
  (e = missing_key /\ key_missing getenv) \/
  (exists api_key, getenv (lit "ISLAMIC_API_KEY") = Some api_key /\
     api_key <> [] /\
     ((exists status_code json_text text,
         client ISLAMIC_API_BASE
           [(lit "lat", lat); (lit "lon", lon); (lit "api_key", api_key)]
           = HTTPStatusError status_code json_text text /\
         e = upstream_status status_code
               (match json_text with Some t => t | None => text end)) \/
      (exists message,
         client ISLAMIC_API_BASE
           [(lit "lat", lat); (lit "lon", lon); (lit "api_key", api_key)]
           = Failed message /\
         e = upstream_failed message) \/
      (exists payload,
         client ISLAMIC_API_BASE
           [(lit "lat", lat); (lit "lon", lon); (lit "api_key", api_key)]
           = Decoded payload /\
         match at_path payload [lit "data"; lit "fasting"] with
         | None => e = unexpected_shape
         | Some fasting =>
             match iter fasting with
             | inl _ => e = TypeError /\ not_iterable fasting
             | inr days =>
                 (e = AttributeError /\
                  Exists (fun d => loop_body d = raise AttributeError) days) \/
                 (e = no_fasting_days /\ loop days [] = ret [])
             end
         end))).
Proof.
  unfold get_ramadan.
  destruct (getenv (lit "ISLAMIC_API_KEY")) as [[|c k]|] eqn:Hk.
  - intros H. left. split; [unfold raise in H; congruence | now right].
  - intros H. right. exists (c :: k). split; [reflexivity|].
    split; [discriminate|]. revert H.
    destruct (client _ _) as [payload|code j text|message] eqn:Hc;
      cbn [bind ret raise].
    + intros H. right; right. exists payload. split; [reflexivity|].
      revert H. rewrite getitem_at_path.
      destruct (at_path payload _) as [fasting|] eqn:Hp; cbn [bind ret raise];
        [|unfold raise; congruence].
      destruct (iter fasting) as [e1|days] eqn:Hi; cbn [bind].
      * intros H.
        assert (e1 = TypeError) by (eapply iter_error; exact Hi). subst e1.
        split; [unfold raise in H; congruence|].
        destruct fasting; try exact I; discriminate Hi.
      * destruct (loop days []) as [e2|res] eqn:Hl; cbn [bind].
        -- intros H.
           assert (e2 = AttributeError) by (eapply loop_error; exact Hl).
           subst e2. left.
           split; [unfold raise in H; congruence|]. now apply (loop_raises_iff days []).
        -- destruct res; [|discriminate]. intros H. right.
           split; [unfold raise in H; congruence | reflexivity].
    + intros H. left. exists code, j, text. split; [reflexivity | unfold raise in H; congruence].
    + intros H. right; left. exists message. split; [reflexivity | unfold raise in H; congruence].
  - intros H. left. split; [unfold raise in H; congruence | now left].
Qed.

Lemma all_dropped_clean_records days :
  Forall (fun d => loop_body d = ret None) days -> clean_records days = [].
Proof.
  induction 1 as [|d days Hd _ IH]; [reflexivity|].
  unfold clean_records in *. cbn [map keep flat_map].
  rewrite (@loop_body_clean_record d None Hd). exact IH.
Qed.

Lemma unreadable_loop_body day :
  unreadable day -> loop_body day = raise AttributeError.
Proof.
  intros [Hd | (time_obj & Ht & Hn)].
  - destruct day; try reflexivity. contradiction.
  - destruct day as [| | | | | |items]; try discriminate Ht.
    cbn [member] in Ht. unfold loop_body. cbn [dict_get bind ret].
    rewrite Ht. destruct time_obj; try reflexivity. contradiction.
Qed.


(** * Further properties of the handler *)

(** X7: the handler raises its HTTP 500 exactly when the API key is unset
    or empty, whatever the upstream would answer, and it raises no other
    HTTP 500. *)
Theorem missing_key_iff getenv client (lat lon : str) :
  (get_ramadan getenv client lat lon = raise missing_key <->
   key_missing getenv) /\
  (forall detail,
     get_ramadan getenv client lat lon = raise (HTTPException 500 detail) ->
     key_missing getenv).
Proof.
  assert (H500 : forall detail,
     get_ramadan getenv client lat lon = raise (HTTPException 500 detail) ->
     key_missing getenv).
  { intros detail H. apply get_ramadan_raises in H.
    destruct H as [[_ Hk] | (k & _ & _ & [H | [H | H]])]; [exact Hk| | |].
    - destruct H as (code & j & text & _ & E). discriminate E.
    - destruct H as (m & _ & E). discriminate E.
    - destruct H as (payload & _ & H).
      destruct (at_path payload _) as [fasting|]; [|discriminate H].
      destruct (iter fasting) as [e1|days].
      + destruct H as [E _]. discriminate E.
      + destruct H as [[E _] | [E _]]; discriminate E. }
  split; [|exact H500]. split.
  - apply H500.
  - unfold get_ramadan. intros [Hk | Hk]; now rewrite Hk.
Qed.

(** X8: the handler fails in seven ways only: the missing key, the two
    upstream errors, the shape error, the empty result, or an uncaught
    [TypeError] or [AttributeError]; a [ValueError] of the normaliser never
    leaves it, and its HTTP errors are 500 or 502. *)
Theorem get_ramadan_error_kinds getenv client (lat lon : str) e :
  get_ramadan getenv client lat lon = raise e ->
  e = missing_key \/
  (exists status_code body, e = upstream_status status_code body) \/
  (exists message, e = upstream_failed message) \/
  e = unexpected_shape \/ e = no_fasting_days \/
  e = TypeError \/ e = AttributeError.
Proof.
  intros H. apply get_ramadan_raises in H.
  destruct H as [[-> _] | (k & _ & _ & [H | [H | H]])].
  - now left.
  - destruct H as (code & j & text & _ & ->). right; left. eauto.
  - destruct H as (m & _ & ->). right; right; left. eauto.
  - destruct H as (payload & _ & H).
    destruct (at_path payload _) as [fasting|].
    + destruct (iter fasting) as [e1|days].
      * destruct H as [-> _]. do 5 right. now left.
      * destruct H as [[-> _] | [-> _]].
        -- do 6 right. reflexivity.
        -- do 4 right. now left.
    + subst e. do 3 right. now left.
Qed.

Lemma get_ramadan_error_kinds_witness :
  AttributeError = missing_key \/
  (exists status_code body, AttributeError = upstream_status status_code body) \/
  (exists message, AttributeError = upstream_failed message) \/
  AttributeError = unexpected_shape \/ AttributeError = no_fasting_days \/
  AttributeError = TypeError \/ AttributeError = AttributeError.
Proof.
  apply (@get_ramadan_error_kinds sample_env
           (answer (body_of (PyList [null_time_day]))) sample_lat sample_lon).
  vm_compute. reflexivity.
Defined.

(** X9: the handler succeeds exactly when the key is set, the request
    returns a body whose [data.fasting] is a list, no day of it makes the
    loop raise and at least one day is well-formed; the result is then the
    clean records of the well-formed days, in upstream order. *)
Theorem get_ramadan_succeeds_iff getenv client (lat lon : str) out :
  get_ramadan getenv client lat lon = ret out <->
  exists api_key payload days,
    getenv (lit "ISLAMIC_API_KEY") = Some api_key /\ api_key <> [] /\
    client ISLAMIC_API_BASE
      [(lit "lat", lat); (lit "lon", lon); (lit "api_key", api_key)]
      = Decoded payload /\
    at_path payload [lit "data"; lit "fasting"] = Some (PyList days) /\
    Forall (fun day => exists r, loop_body day = ret r) days /\
    out = clean_records days /\ out <> [].
Proof.
  split.
  - intros H. apply get_ramadan_ret in H.
    destruct H as (k & payload & fasting & days & Hk & Hn & Hc & Hp & Hi & Hl & Ho).
    assert (Hlist : fasting = PyList days).
    { destruct fasting as [| | | |s|l|d]; cbn [iter] in Hi; try discriminate Hi.
      - exfalso. pose proof (@iter_not_list (PyStr s) days Hi) as Hall.
        destruct days as [|x days].
        + cbn [loop] in Hl. apply ret_inj in Hl. congruence.
        + assert (Hx : loop_body x = raise AttributeError).
          { apply (Forall_inv (Hall ltac:(discriminate))). }
          cbn [loop] in Hl. rewrite Hx in Hl. discriminate Hl.
      - apply ret_inj in Hi. now subst.
      - exfalso. pose proof (@iter_not_list (PyDict d) days Hi) as Hall.
        destruct days as [|x days].
        + cbn [loop] in Hl. apply ret_inj in Hl. congruence.
        + assert (Hx : loop_body x = raise AttributeError).
          { apply (Forall_inv (Hall ltac:(discriminate))). }
          cbn [loop] in Hl. rewrite Hx in Hl. discriminate Hl. }
    subst fasting. exists k, payload, days. repeat split; auto.
    + eapply loop_ret_no_raise; eauto.
    + apply loop_ret_clean_records in Hl. exact Hl.
  - intros (k & payload & days & Hk & Hn & Hc & Hp & Hall & -> & Ho).
    rewrite (@get_ramadan_outcome getenv client lat lon k payload
               (PyList days) days Hk Hn Hc Hp eq_refl).
    rewrite (loop_no_raise [] Hall). cbn [app].
    unfold ret. now destruct (clean_records days).
Qed.

(** X10: the empty-result error is raised exactly when the key is set,
    the request returns a body, [data.fasting] can be iterated, and the
    loop skips every element. *)
Theorem empty_result_iff getenv client (lat lon : str) :
  get_ramadan getenv client lat lon = raise no_fasting_days <->
  exists api_key payload fasting days,
    getenv (lit "ISLAMIC_API_KEY") = Some api_key /\ api_key <> [] /\
    client ISLAMIC_API_BASE
      [(lit "lat", lat); (lit "lon", lon); (lit "api_key", api_key)]
      = Decoded payload /\
    at_path payload [lit "data"; lit "fasting"] = Some fasting /\
    iter fasting = ret days /\
    Forall (fun day => loop_body day = ret None) days.
Proof.
  split.
  - intros H. apply get_ramadan_raises in H.
    destruct H as [[E _] | (k & Hk & Hn & [H | [H | H]])].
    + discriminate E.
    + destruct H as (code & j & text & _ & E). exfalso.
      symmetry in E. revert E. apply upstream_status_not_empty.
    + destruct H as (m & _ & E). exfalso.
      symmetry in E. revert E. apply upstream_failed_not_empty.
    + destruct H as (payload & Hc & H).
      destruct (at_path payload _) as [fasting|] eqn:Hp.
      * destruct (iter fasting) as [e1|days] eqn:Hi.
        -- destruct H as [E _]. discriminate E.
        -- destruct H as [[E _] | [_ Hl]]; [discriminate E|].
           exists k, payload, fasting, days. repeat split; auto.
           apply loop_inv in Hl. destruct Hl as (rs & Hrs & Hnil).
           cbn [app] in Hnil. clear Hi.
           induction Hrs as [|d r days' rs' Hb _ IH]; constructor.
           ++ destruct r as [rec|]; [discriminate Hnil | exact Hb].
           ++ apply IH. destruct r; [discriminate Hnil | exact Hnil].
      * exfalso.
        apply (f_equal (detail_char 0)) in H. vm_compute in H. discriminate.
  - intros (k & payload & fasting & days & Hk & Hn & Hc & Hp & Hi & Hall).
    rewrite (@get_ramadan_outcome getenv client lat lon k payload
               fasting days Hk Hn Hc Hp Hi).
    rewrite (@loop_no_raise days []).
    + cbn [app]. now rewrite (all_dropped_clean_records Hall).
    + eapply Forall_impl; [|exact Hall]. intros d Hd. exists None. exact Hd.
Qed.

(** X11: an uncaught [TypeError] leaves the handler exactly when
    [data.fasting] is present and is [null], a boolean or a number. *)
Theorem type_error_iff getenv client (lat lon : str) :
  get_ramadan getenv client lat lon = raise TypeError <->
  exists api_key payload fasting,
    getenv (lit "ISLAMIC_API_KEY") = Some api_key /\ api_key <> [] /\
    client ISLAMIC_API_BASE
      [(lit "lat", lat); (lit "lon", lon); (lit "api_key", api_key)]
      = Decoded payload /\
    at_path payload [lit "data"; lit "fasting"] = Some fasting /\
    not_iterable fasting.
Proof.
  split.
  - intros H. apply get_ramadan_raises in H.
    destruct H as [[E _] | (k & Hk & Hn & [H | [H | H]])].
    + discriminate E.
    + destruct H as (code & j & text & _ & E). discriminate E.
    + destruct H as (m & _ & E). discriminate E.
    + destruct H as (payload & Hc & H).
      destruct (at_path payload _) as [fasting|] eqn:Hp; [|discriminate H].
      destruct (iter fasting) as [e1|days].
      * destruct H as [_ Hf]. exists k, payload, fasting. auto.
      * destruct H as [[E _] | [E _]]; discriminate E.
  - intros (k & payload & fasting & Hk & Hn & Hc & Hp & Hf).
    rewrite (@get_ramadan_decoded getenv client lat lon _ _ Hk Hn Hc), Hp.
    destruct fasting; try contradiction; reflexivity.
Qed.

(** X12: an uncaught [AttributeError] leaves the handler exactly when
    some element of [data.fasting] makes the loop body raise: one such
    element fails the whole request, whatever the others are. *)
Theorem attribute_error_iff getenv client (lat lon : str) :
  get_ramadan getenv client lat lon = raise AttributeError <->
  exists api_key payload fasting days,
    getenv (lit "ISLAMIC_API_KEY") = Some api_key /\ api_key <> [] /\
    client ISLAMIC_API_BASE
      [(lit "lat", lat); (lit "lon", lon); (lit "api_key", api_key)]
      = Decoded payload /\
    at_path payload [lit "data"; lit "fasting"] = Some fasting /\
    iter fasting = ret days /\
    Exists (fun day => loop_body day = raise AttributeError) days.
Proof.
  split.
  - intros H. apply get_ramadan_raises in H.
    destruct H as [[E _] | (k & Hk & Hn & [H | [H | H]])].
    + discriminate E.
    + destruct H as (code & j & text & _ & E). discriminate E.
    + destruct H as (m & _ & E). discriminate E.
    + destruct H as (payload & Hc & H).
      destruct (at_path payload _) as [fasting|] eqn:Hp; [|discriminate H].
      destruct (iter fasting) as [e1|days] eqn:Hi.
      * destruct H as [E _]. discriminate E.
      * destruct H as [[_ Hx] | [E _]]; [|discriminate E].
        exists k, payload, fasting, days. auto 10.
  - intros (k & payload & fasting & days & Hk & Hn & Hc & Hp & Hi & Hx).
    rewrite (@get_ramadan_outcome getenv client lat lon k payload
               fasting days Hk Hn Hc Hp Hi).
    apply (loop_raises_iff days []) in Hx. now rewrite Hx.
Qed.

(** X13: a day that is no object, or whose [time] is present and no
    object, fails the whole request with an uncaught [AttributeError],
    wherever it stands in the list and whatever the other days are. *)
Theorem unreadable_day_fails_the_request
    getenv client (lat lon api_key : str) payload days day :
  getenv (lit "ISLAMIC_API_KEY") = Some api_key -> api_key <> [] ->
  client ISLAMIC_API_BASE
    [(lit "lat", lat); (lit "lon", lon); (lit "api_key", api_key)]
    = Decoded payload ->
  at_path payload [lit "data"; lit "fasting"] = Some (PyList days) ->
  In day days -> unreadable day ->
  get_ramadan getenv client lat lon = raise AttributeError.
Proof.
  intros Hk Hn Hc Hp Hin Hu.
  rewrite (@get_ramadan_outcome getenv client lat lon api_key payload
             (PyList days) days Hk Hn Hc Hp eq_refl).
  assert (Hx : Exists (fun d => loop_body d = raise AttributeError) days).
  { apply Exists_exists. exists day. split; [exact Hin|].
    now apply unreadable_loop_body. }
  apply (loop_raises_iff days []) in Hx. now rewrite Hx.
Qed.

Lemma unreadable_day_fails_the_request_witness :
  get_ramadan sample_env (answer (body_of (PyList [sample_day; bool_day])))
    sample_lat sample_lon = raise AttributeError.
Proof.
  apply (@unreadable_day_fails_the_request sample_env
           (answer (body_of (PyList [sample_day; bool_day])))
           sample_lat sample_lon (lit "secret")
           (body_of (PyList [sample_day; bool_day]))
           [sample_day; bool_day] bool_day).
  - reflexivity.
  - discriminate.
  - reflexivity.
  - reflexivity.
  - right. left. reflexivity.
  - left. exact I.
Defined.


